(** * cbtools-autobench, package [nodes]: remote node provisioning

    A shallow embedding of [nodes/node.go].  A [Node] drives one remote host
    through an ssh client: it installs packages, uploads the Couchbase Server
    archive, creates the data and index paths, initialises the node, and
    partitions the attached EBS volume found by [ExtractLastVolumeName].

    Go strings are byte sequences and are modelled by [string] (one [ascii]
    per byte).  The functions of Go's standard library which the file calls
    ([strings.Split], [strings.Fields], [strings.Index], [fmt.Sprintf],
    [errors.Wrap], [fmt.Errorf], ...) are modelled first, then the remote
    client and the monad of effects, then the methods of [Node] in the order
    of the source. *)

From Stdlib Require Import String Ascii List ZArith Bool Lia.
Import ListNotations.

Local Open Scope string_scope.
Local Open Scope Z_scope.

(** ** Bytes and UTF-8 decoding (package [unicode/utf8]) *)

Definition byteVal (c : ascii) : Z := Z.of_N (N_of_ascii c).

(** [s[i]] for an index the caller has checked to be in range. *)
Definition byteAt (s : string) (i : nat) : Z :=
  match String.get i s with
  | Some c => byteVal c
  | None => 0
  end.

Definition RuneError : Z := 0xFFFD.

(** The table [first] of package utf8: [0xF0] for ASCII, [0xF1] for an
    invalid leading byte, otherwise the accept-range index in the high
    nibble and the sequence length in the low one. *)
Definition first (b : Z) : Z :=
  if b <? 0x80 then 0xF0
  else if b <? 0xC2 then 0xF1
  else if b <? 0xE0 then 0x02
  else if b =? 0xE0 then 0x13
  else if b <? 0xED then 0x03
  else if b =? 0xED then 0x23
  else if b <? 0xF0 then 0x03
  else if b =? 0xF0 then 0x34
  else if b <? 0xF4 then 0x04
  else if b =? 0xF4 then 0x44
  else 0xF1.

Definition acceptRanges (i : Z) : Z * Z :=
  match i with
  | 0 => (0x80, 0xBF)
  | 1 => (0xA0, 0xBF)
  | 2 => (0x80, 0x9F)
  | 3 => (0x90, 0xBF)
  | 4 => (0x80, 0x8F)
  | _ => (0, 0)
  end.

(** [utf8.DecodeRuneInString]: the first rune of [s] and its width in bytes;
    an invalid encoding yields [(RuneError, 1)].  A [range] loop over a
    string decodes the same way. *)
Definition DecodeRuneInString (s : string) : Z * nat :=
  let n := Z.of_nat (String.length s) in
  if n <? 1 then (RuneError, 0%nat)
  else
    let s0 := byteAt s 0 in
    let x := first s0 in
    if 0xF0 <=? x then ((if Z.testbit x 0 then RuneError else s0), 1%nat)
    else
      let sz := Z.land x 7 in
      let '(lo, hi) := acceptRanges (Z.shiftr x 4) in
      if n <? sz then (RuneError, 1%nat)
      else
        let s1 := byteAt s 1 in
        if (s1 <? lo) || (hi <? s1) then (RuneError, 1%nat)
        else if sz <=? 2 then
          (Z.lor (Z.shiftl (Z.land s0 0x1F) 6) (Z.land s1 0x3F), 2%nat)
        else
          let s2 := byteAt s 2 in
          if (s2 <? 0x80) || (0xBF <? s2) then (RuneError, 1%nat)
          else if sz <=? 3 then
            (Z.lor (Z.lor (Z.shiftl (Z.land s0 0x0F) 12)
                          (Z.shiftl (Z.land s1 0x3F) 6))
                   (Z.land s2 0x3F), 3%nat)
          else
            let s3 := byteAt s 3 in
            if (s3 <? 0x80) || (0xBF <? s3) then (RuneError, 1%nat)
            else
              (Z.lor (Z.lor (Z.lor (Z.shiftl (Z.land s0 0x07) 18)
                                   (Z.shiftl (Z.land s1 0x3F) 12))
                            (Z.shiftl (Z.land s2 0x3F) 6))
                     (Z.land s3 0x3F), 4%nat).

(** [unicode.IsSpace]: the Latin-1 spaces, then the rest of the Unicode
    property White_Space. *)
Definition IsSpace (r : Z) : bool :=
  if r <=? 0xFF then
    ((0x09 <=? r) && (r <=? 0x0D)) || (r =? 0x20) || (r =? 0x85) || (r =? 0xA0)
  else
    (r =? 0x1680) || ((0x2000 <=? r) && (r <=? 0x200A))
    || (r =? 0x2028) || (r =? 0x2029) || (r =? 0x202F)
    || (r =? 0x205F) || (r =? 0x3000).

(** ** Package [strings] *)

Definition newline : ascii := "010"%char.

(** [strings.Split(s, sep)] for a separator of one byte, the only kind the
    source uses ([sep = "\n"]): the pieces of [s] between the separators,
    [[s]] when there is none. *)
Fixpoint Split (s : string) (sep : ascii) : list string :=
  match s with
  | EmptyString => [EmptyString]
  | String c rest =>
      if Ascii.eqb c sep then EmptyString :: Split rest sep
      else
        match Split rest sep with
        | piece :: pieces => String c piece :: pieces
        | [] => [String c EmptyString]
        end
  end.

(** The loop of [strings.FieldsFunc(s, f)].  [skip] counts the bytes that
    remain of the rune decoded last; [cur] is the field being read, if any.
    A rune satisfying [f] closes the field, any other rune extends it (or
    opens one) with all of its bytes. *)
Fixpoint fieldsLoop (f : Z -> bool) (s : string) (skip : nat)
    (cur : option string) : list string :=
  match s with
  | EmptyString =>
      match cur with
      | Some w => [w]
      | None => []
      end
  | String c rest =>
      match skip with
      | S k =>
          match cur with
          | Some w => fieldsLoop f rest k (Some (w ++ String c EmptyString))
          | None => fieldsLoop f rest k None
          end
      | O =>
          let '(r, size) := DecodeRuneInString (String c rest) in
          if f r then
            match cur with
            | Some w => w :: fieldsLoop f rest (Nat.pred size) None
            | None => fieldsLoop f rest (Nat.pred size) None
            end
          else
            match cur with
            | Some w =>
                fieldsLoop f rest (Nat.pred size) (Some (w ++ String c EmptyString))
            | None =>
                fieldsLoop f rest (Nat.pred size) (Some (String c EmptyString))
            end
      end
  end.

Definition FieldsFunc (s : string) (f : Z -> bool) : list string :=
  fieldsLoop f s 0%nat None.

(** [strings.Fields]: [s] split around each run of white space, as defined
    by [unicode.IsSpace].  Go takes the byte-wise path [fieldsASCII] when
    every byte of [s] is below [0x80]; [Fields_ascii] shows that it computes
    the same fields. *)
Definition Fields (s : string) : list string := FieldsFunc s IsSpace.

(** The table [asciiSpace] of package strings. *)
Definition asciiSpace (c : ascii) : bool :=
  let b := byteVal c in
  (b =? 0x09) || (b =? 0x0A) || (b =? 0x0B) || (b =? 0x0C) || (b =? 0x0D) || (b =? 0x20).

Fixpoint fieldsASCII (s : string) (cur : option string) : list string :=
  match s with
  | EmptyString =>
      match cur with
      | Some w => [w]
      | None => []
      end
  | String c rest =>
      if asciiSpace c then
        match cur with
        | Some w => w :: fieldsASCII rest None
        | None => fieldsASCII rest None
        end
      else
        match cur with
        | Some w => fieldsASCII rest (Some (w ++ String c EmptyString))
        | None => fieldsASCII rest (Some (String c EmptyString))
        end
  end.

Fixpoint isASCII (s : string) : bool :=
  match s with
  | EmptyString => true
  | String c rest => (byteVal c <? 0x80) && isASCII rest
  end.

(** [strings.Index]: the byte index of the first instance of [substr] in
    [s], or [-1]. *)
Fixpoint Index (s substr : string) : Z :=
  if String.prefix substr s then 0
  else
    match s with
    | EmptyString => -1
    | String _ rest =>
        let i := Index rest substr in
        if i =? -1 then -1 else i + 1
    end.

(** [strings.Contains]. *)
Definition Contains (s substr : string) : bool := 0 <=? Index s substr.

(** The slice expression [s[i:]]. *)
Definition sliceFrom (s : string) (i : Z) : string :=
  String.substring (Z.to_nat i) (String.length s - Z.to_nat i) s.

(** ** Package [fmt] *)

(** [fmt.Sprintf] on the formats the source writes: the verbs [%s], [%v]
    and [%w], each replaced by the next operand, which is a string, a byte
    slice or an error's message.  The source passes no other verb in a
    literal format, and any other text is copied as it is. *)
Fixpoint Sprintf (format : string) (args : list string) : string :=
  match format with
  | EmptyString => EmptyString
  | String c rest =>
      match rest with
      | String v rest' =>
          if Ascii.eqb c "%"
             && (Ascii.eqb v "s" || Ascii.eqb v "v" || Ascii.eqb v "w") then
            match args with
            | a :: args' => (a ++ Sprintf rest' args')%string
            | [] => String c (Sprintf rest [])
            end
          else String c (Sprintf rest args)
      | EmptyString => String c EmptyString
      end
  end.

(** ** Errors (packages [errors], [fmt] and [github.com/pkg/errors]) *)

Inductive error : Type :=
  | errorString (s : string)                   (* [errors.New], [fmt.Errorf] without [%w] *)
  | withMessage (cause : error) (msg : string) (* [errors.Wrap], [errors.Wrapf] *)
  | wrapError (msg : string) (err : error).    (* [fmt.Errorf] with [%w] *)

(** The method [Error()]. *)
Fixpoint Error (e : error) : string :=
  match e with
  | errorString s => s
  | withMessage cause msg => msg ++ ": " ++ Error cause
  | wrapError msg _ => msg
  end.

(** [errors.Wrap(err, message)]: [nil] for a [nil] error. *)
Definition errors_Wrap (err : option error) (message : string) : option error :=
  match err with
  | None => None
  | Some e => Some (withMessage e message)
  end.

(** [errors.Wrapf(err, format, args...)]. *)
Definition errors_Wrapf (err : option error) (format : string)
    (args : list string) : option error :=
  errors_Wrap err (Sprintf format args).

(** [fmt.Errorf(format)] and [fmt.Errorf(format, err)] with one [%w]. *)
Definition fmt_Errorf (format : string) (w : option error) : error :=
  match w with
  | None => errorString (Sprintf format [])
  | Some e => wrapError (Sprintf format [Error e]) e
  end.

Fixpoint error_eqb (a b : error) : bool :=
  match a, b with
  | errorString s, errorString t => String.eqb s t
  | withMessage c m, withMessage d k => error_eqb c d && String.eqb m k
  | wrapError m c, wrapError k d => String.eqb m k && error_eqb c d
  | _, _ => false
  end.

(** The chain walked by [errors.Is]. *)
Fixpoint inChain (e target : error) : bool :=
  error_eqb e target
  || match e with
     | errorString _ => false
     | withMessage cause _ => inChain cause target
     | wrapError _ err => inChain err target
     end.

(** [errors.Is(err, target)].  A [nil] [err] matches only a [nil] target.
    Go compares error values by identity, so a target built in the call
    itself matches no earlier error; comparing messages, as here, is the
    more generous reading. *)
Definition errors_Is (err target : option error) : bool :=
  match target, err with
  | None, None => true
  | None, Some _ => false
  | Some _, None => false
  | Some t, Some e => inChain e t
  end.

(** ** The remote command channel (package [ssh]) and the effects of a run

    The package [ssh] is the external collaborator of [node.go]: the client
    executes a command or a package operation on the remote host and
    returns its output and its error.  Nothing is assumed of the host: what
    it answers to a request is any function of the requests and pauses that
    came before it.  A run of a method is a function on the trace of events,
    which records the requests, the pauses and the log lines in the order of
    their occurrence.  [log.Fatalf] ends the process with status 1. *)

Definition Command : Type := string.

Inductive Request : Type :=
  | ReqExecuteCommand (command : Command)
  | ReqInstallPackages (packages : list string)
  | ReqUninstallPackages (packages : list string)
  | ReqInstallPackageAt (path : string)
  | ReqRemoveFile (path : string)
  | ReqRemoveDirectory (path : string)
  | ReqSecureUpload (source sink : string).

Inductive Action : Type :=
  | Remote (r : Request)
  | Sleep (d : Z).

Inductive Level : Type := InfoLevel | FatalLevel.

Inductive Event : Type :=
  | Act (a : Action)
  | Log (level : Level) (fields : list (string * string)) (message : string).

Definition Trace : Type := list Event.

Fixpoint actions (t : Trace) : list Action :=
  match t with
  | [] => []
  | Act a :: t' => a :: actions t'
  | Log _ _ _ :: t' => actions t'
  end.

(** Modelled from the spec: [ssh.Platform], the platform specific command
    builders of the client (dependency list, service-disable command). *)
Record Platform : Type := {
  Dependencies : list string;
  CommandDisableCouchbase : Command
}.

(** Modelled from the spec: [ssh.Client], the remote command channel, of
    which the source calls [ExecuteCommand], [InstallPackages],
    [UninstallPackages], [InstallPackageAt], [SecureUpload], [RemoveFile]
    and [RemoveDirectory].  [respond h r] is the output and the error of
    request [r] issued after the actions [h]; the output is read for
    [ExecuteCommand] only. *)
Record Client : Type := {
  platform : Platform;
  respond : list Action -> Request -> string * option error
}.

(** Modelled from the spec: [value.NodeBlueprint], the host address with
    the optional data path and index path (empty when not set). *)
Record NodeBlueprint : Type := {
  Host : string;
  DataPath : string;
  IndexPath : string
}.

Record Node : Type := {
  blueprint : NodeBlueprint;
  client : Client
}.

Inductive Outcome (A : Type) : Type :=
  | Returned (a : A)
  | Exited (status : Z).

Arguments Returned {A} a.
Arguments Exited {A} status.

Definition M (A : Type) : Type := Trace -> Outcome A * Trace.

Definition ret {A : Type} (a : A) : M A := fun t => (Returned a, t).

Definition bind {A B : Type} (m : M A) (k : A -> M B) : M B :=
  fun t =>
    match m t with
    | (Returned a, t') => k a t'
    | (Exited status, t') => (Exited status, t')
    end.

Declare Scope run_scope.
Delimit Scope run_scope with run.
Notation "x <- m ;; k" := (bind m (fun x => k))
  (at level 61, m at next level, right associativity) : run_scope.
Notation "m ;; k" := (bind m (fun _ => k))
  (at level 61, right associativity) : run_scope.
Local Open Scope run_scope.

Definition emit (e : Event) : M unit := fun t => (Returned tt, (t ++ [e])%list).

Definition request (c : Client) (r : Request) : M (string * option error) :=
  fun t => (Returned (respond c (actions t) r), (t ++ [Act (Remote r)])%list).

Definition ExecuteCommand (c : Client) (command : Command) : M (string * option error) :=
  request c (ReqExecuteCommand command).

Definition InstallPackages (c : Client) (packages : list string) : M (option error) :=
  r <- request c (ReqInstallPackages packages) ;; ret (snd r).

Definition UninstallPackages (c : Client) (packages : list string) : M (option error) :=
  r <- request c (ReqUninstallPackages packages) ;; ret (snd r).

Definition InstallPackageAt (c : Client) (path : string) : M (option error) :=
  r <- request c (ReqInstallPackageAt path) ;; ret (snd r).

Definition RemoveFile (c : Client) (path : string) : M (option error) :=
  r <- request c (ReqRemoveFile path) ;; ret (snd r).

Definition RemoveDirectory (c : Client) (path : string) : M (option error) :=
  r <- request c (ReqRemoveDirectory path) ;; ret (snd r).

Definition SecureUpload (c : Client) (source sink : string) : M (option error) :=
  r <- request c (ReqSecureUpload source sink) ;; ret (snd r).

(** [log.WithFields(fields).Info(message)]. *)
Definition log_Info (fields : list (string * string)) (message : string) : M unit :=
  emit (Log InfoLevel fields message).

(** [log.Fatalf(format, args...)]: the line is logged and the process exits. *)
Definition log_Fatalf (format : string) (args : list string) : M unit :=
  fun t => (Exited 1, (t ++ [Log FatalLevel [] (Sprintf format args)])%list).

(** [time.Sleep(d)], [d] in nanoseconds. *)
Definition time_Sleep (d : Z) : M unit := emit (Act (Sleep d)).

Definition time_Second : Z := 1000000000.

Definition notNil (err : option error) : bool :=
  match err with
  | Some _ => true
  | None => false
  end.

(** ** The block device locator *)

(** [ExtractLastVolumeName] extracts the last volume name from lsblk output. *)
Definition ExtractLastVolumeName (lsblkOutput : string) : string * option error :=
  let lines := Split lsblkOutput newline in
  let lastVolumeName :=
    fold_left
      (fun lastVolumeName line =>
         let fields := Fields line in
         if (2 <? Z.of_nat (List.length fields))
            && String.eqb (nth 2 fields EmptyString) "disk"
         then nth 0 fields EmptyString
         else lastVolumeName)
      lines EmptyString in
  if String.eqb lastVolumeName ""
  then ("", Some (fmt_Errorf "no disk volume found in lsblk output" None))
  else (lastVolumeName, None).

(** A line of the listing counts as a disk line when it has three or more
    white-space delimited fields and the third one, TYPE, is [disk]. *)
Definition isDiskLine (line : string) : bool :=
  (3 <=? Z.of_nat (List.length (Fields line)))
  && String.eqb (nth 2 (Fields line) EmptyString) "disk".

Definition scenarioA : string :=
  "nvme0n1 8G disk " ++ String newline "nvme0n1p1 8G part /"
  ++ String newline "nvme1n1 100G disk ".

(** No byte of [s] is one of the six ASCII white space bytes. *)
Fixpoint noSpace (s : string) : bool :=
  match s with
  | EmptyString => true
  | String c rest => negb (asciiSpace c) && noSpace rest
  end.

(** The first [k] bytes of [s], as far as [s] reaches, are [0x80] or more:
    they are not ASCII. *)
Fixpoint highPrefix (k : nat) (s : string) : bool :=
  match k, s with
  | O, _ => true
  | S _, EmptyString => true
  | S k', String c rest => (0x80 <=? byteVal c) && highPrefix k' rest
  end.

(** ** Sequences that stop at the first failure

    The reading of "issue these in order; the first failure aborts with a
    wrapped error", against which the sequencing methods are compared.  A
    script is run against the client from the history [h]; the result is
    the list of actions that were issued and the error, if any. *)

Inductive Step : Type :=
  | Issue (r : Request) (wrap : error -> error)
  | Pause (d : Z).

Fixpoint failFast (c : Client) (h : list Action) (script : list Step)
    : list Action * option error :=
  match script with
  | [] => ([], None)
  | Issue r wrap :: rest =>
      match snd (respond c h r) with
      | Some e => ([Remote r], Some (wrap e))
      | None =>
          let '(issued, res) := failFast c (h ++ [Remote r])%list rest in
          (Remote r :: issued, res)
      end
  | Pause d :: rest =>
      let '(issued, res) := failFast c (h ++ [Sleep d])%list rest in
      (Sleep d :: issued, res)
  end.

Definition actionOf (s : Step) : Action :=
  match s with
  | Issue r _ => Remote r
  | Pause d => Sleep d
  end.

(** ** Runs that return to their caller *)



(** ** Hosts and platforms to run the methods on *)

(** A host that answers the [k]-th request it receives with the [k]-th
    entry of [answers], and with success and no output after that. *)
Definition requestsIn (h : list Action) : nat :=
  List.length (filter (fun a => match a with Remote _ => true | Sleep _ => false end) h).

Definition scriptedClient (answers : list (string * option error)) : Client :=
  {| platform := {| Dependencies := ["openssl"; "tar"];
                    CommandDisableCouchbase := "systemctl disable --now couchbase-server" |};
     respond := fun h _ => nth (requestsIn h) answers (EmptyString, None) |}.

Definition scriptedNode (b : NodeBlueprint) (answers : list (string * option error)) : Node :=
  {| blueprint := b; client := scriptedClient answers |}.

Definition ok : string * option error := (EmptyString, None).

Definition failed (message : string) : string * option error :=
  (EmptyString, Some (errorString message)).

Definition exampleBlueprint : NodeBlueprint :=
  {| Host := "10.0.0.7"; DataPath := "/data"; IndexPath := "/index" |}.

Definition examplePackage : string :=
  "/tmp/couchbase-server-enterprise-7.0.0-amzn2.x86_64.rpm".

(** The last element of a slash separated path, and the elements joined by
    slashes: what [filepath.Base] and [filepath.Join] compute on the clean
    Unix paths of the examples. *)
Fixpoint lastElement (path : string) : string :=
  match path with
  | EmptyString => EmptyString
  | String c rest =>
      if Contains rest "/" then lastElement rest
      else if Ascii.eqb c "/" then rest
      else path
  end.

Definition joinSlash (elem : list string) : string := String.concat "/" elem.

(** ** The methods of [Node] *)

Section Nodes.

(** Parts of the repository and of the platform that [node.go] uses and
    does not define: the command constructor [value.NewCommand(format,
    args...)], the constant [value.CBInstallDirectory], and the path
    functions of [path/filepath], which depend on the operating system the
    tool runs on. *)
Variable NewCommand : string -> list string -> Command.
Variable CBInstallDirectory : string.
Variable filepath_Base : string -> string.
Variable filepath_Join : list string -> string.

Definition hostField (n : Node) : list (string * string) :=
  [("host", Host (blueprint n))].

(** [installDeps] installs any required platform specific dependencies which
    are missing on the remote machine. *)
Definition installDeps (n : Node) : M (option error) :=
  log_Info (hostField n) "Installing dependencies" ;;
  InstallPackages (client n) (Dependencies (platform (client n))).

(** [uninstallCB] will uninstall Couchbase Server from the remote node
    ensuring a clean slate. *)
Definition uninstallCB (n : Node) : M (option error) :=
  log_Info (hostField n) "Uninstalling 'couchbase-server'" ;;
  err <- UninstallPackages (client n) ["couchbase-server"] ;;
  if notNil err then ret (errors_Wrap err "failed to uninstall 'couchbase-server'")
  else
    log_Info (hostField n) "Purging install directory" ;;
    err <- RemoveDirectory (client n) CBInstallDirectory ;;
    if notNil err then
      ret (errors_Wrapf err "failed to cleanup install directory at '%s'"
             [CBInstallDirectory])
    else ret None.

(** [installCB] uploads the Couchbase Server install package to the remote
    machine and installs it.  The [switch] tests [err != nil] first. *)
Definition installCB (n : Node) (localPath : string) : M (option error) :=
  let remotePath := filepath_Join ["/home/ec2-user"; filepath_Base localPath] in
  log_Info (hostField n) "Uploading package archive" ;;
  err <- SecureUpload (client n) localPath remotePath ;;
  if notNil err then ret (errors_Wrap err "failed to upload package archive")
  else if errors_Is err (Some (fmt_Errorf "File already exists" None)) then
    log_Info (hostField n) "Package archive already exists" ;;
    ret None
  else
    log_Info (hostField n) "Installing 'couchbase-server'" ;;
    err <- InstallPackageAt (client n) remotePath ;;
    if notNil err then ret (errors_Wrap err "failed to install 'couchbase-server'")
    else
      log_Info (hostField n) "Cleaning up package archive" ;;
      err <- RemoveFile (client n) remotePath ;;
      if notNil err then ret (errors_Wrap err "failed to remove package archive")
      else ret None.

(** [giveCBPermissions] will give the Couchbase Server user the required
    permissions to access the data path. *)
Definition giveCBPermissions (n : Node) : M (option error) :=
  let changePermissions := "sudo chown -R couchbase:couchbase /mnt" in
  r <- ExecuteCommand (client n) (NewCommand changePermissions []) ;;
  let err := snd r in
  if notNil err then
    ret (Some (fmt_Errorf "failed to change permissions on /mnt: %w" err))
  else ret None.

(** [provision] the node by installing the required dependencies (including
    Couchbase Server). *)
Definition provision (n : Node) (packagePath : string) : M (option error) :=
  err <- installDeps n ;;
  if notNil err then ret (errors_Wrap err "failed to install dependencies")
  else
    err <- uninstallCB n ;;
    if notNil err then ret (errors_Wrap err "failed to uninstall Couchbase Server")
    else
      err <- installCB n packagePath ;;
      if notNil err then ret (errors_Wrap err "failed to install Couchbase Server")
      else
        time_Sleep (30 * time_Second) ;;
        err <- giveCBPermissions n ;;
        if notNil err then
          ret (errors_Wrap err "failed to give Couchbase Server permissions")
        else ret None.

(** [createDataPath] ensures that the users chosen data path exists on the
    remote machine. *)
Definition createDataPath (n : Node) : M (option error) :=
  if String.eqb (DataPath (blueprint n)) "" then ret None
  else
    log_Info (hostField n) "Creating/configuring data path" ;;
    r <- ExecuteCommand (client n)
           (NewCommand "mkdir -p %s" [DataPath (blueprint n)]) ;;
    let err := snd r in
    if notNil err then ret (errors_Wrap err "failed to create remote data directory")
    else
      r <- ExecuteCommand (client n)
             (NewCommand "chown -R couchbase:couchbase %s" [DataPath (blueprint n)]) ;;
      let err := snd r in
      if notNil err then ret (errors_Wrap err "failed to chown remote data directory")
      else ret None.

Definition createIndexPath (n : Node) : M (option error) :=
  if String.eqb (IndexPath (blueprint n)) "" then ret None
  else
    log_Info (hostField n) "Creating/configuring index path" ;;
    r <- ExecuteCommand (client n)
           (NewCommand "mkdir -p %s" [IndexPath (blueprint n)]) ;;
    let err := snd r in
    if notNil err then ret (errors_Wrap err "failed to create remote index directory")
    else
      r <- ExecuteCommand (client n)
             (NewCommand "chown -R couchbase:couchbase %s" [IndexPath (blueprint n)]) ;;
      let err := snd r in
      if notNil err then ret (errors_Wrap err "failed to chown remote index directory")
      else ret None.

(** The value of the local variable [init] of [initializeCB] when the
    command is issued. *)
Definition initializeCB_init (b : NodeBlueprint) : string :=
  let init := "couchbase-cli node-init -c localhost:8091 -u Administrator -p asdasd" in
  let init :=
    if negb (String.eqb (DataPath b) "")
    then init ++ Sprintf " --node-init-data-path %s" [DataPath b]
    else init in
  let init :=
    if negb (String.eqb (IndexPath b) "")
    then init ++ Sprintf " --node-init-index-path %s" [IndexPath b]
    else init in
  init.

(** [initializeCB] will perform node level initialization of Couchbase
    Server. *)
Definition initializeCB (n : Node) : M (option error) :=
  let fields :=
    [("host", Host (blueprint n));
     ("data_path", DataPath (blueprint n));
     ("index_path", IndexPath (blueprint n))] in
  log_Info fields "Initializing node" ;;
  let init := initializeCB_init (blueprint n) in
  r <- ExecuteCommand (client n) (NewCommand init []) ;;
  ret (snd r).


(** [loginAsRoot] will attempt to login as the root user on the remote
    machine.  Every failure goes to [log.Fatalf]. *)
Definition loginAsRoot (n : Node) : M (option error) :=
  r <- ExecuteCommand (client n) "sudo -s" ;;
  (match snd r with
   | Some e => log_Fatalf "failed to become root: %v" [Error e]
   | None => ret tt
   end) ;;
  r <- ExecuteCommand (client n) "sudo cat /root/.ssh/authorized_keys" ;;
  let output := fst r in
  (match snd r with
   | Some e => log_Fatalf "failed to read authorized_keys: %v" [Error e]
   | None => ret tt
   end) ;;
  let index := Index output "ssh-rsa" in
  (if index =? -1 then log_Fatalf "ssh-rsa not found in authorized_keys" []
   else ret tt) ;;
  let newContent := sliceFrom output index in
  let msg := Sprintf "echo '%s' | sudo tee /root/.ssh/authorized_keys" [newContent] in
  r <- ExecuteCommand (client n) msg ;;
  (match snd r with
   | Some e => log_Fatalf "failed to write to authorized_keys: %v" [Error e]
   | None => ret tt
   end) ;;
  r <- ExecuteCommand (client n)
         "sudo systemctl restart sshd.service || sudo systemctl restart ssh.service" ;;
  (match snd r with
   | Some e => log_Fatalf "failed to restart SSH service: %v" [Error e]
   | None => ret tt
   end) ;;
  ret (snd r).

(** [checkAndPartitionEBS] will check for an EBS volume; if it is not
    partitioned yet it partitions it, makes an xfs file system on the
    partition and mounts it on /mnt. *)
Definition checkAndPartitionEBS (n : Node) : M (option error) :=
  log_Info (hostField n) "Checking and partitioning EBS volume" ;;
  let checkAllVolumes := Sprintf "lsblk -o NAME,SIZE,TYPE,MOUNTPOINT" [] in
  r <- ExecuteCommand (client n) (NewCommand checkAllVolumes []) ;;
  let allVolumes := fst r in
  if notNil (snd r) then
    ret (Some (fmt_Errorf "failed to check for all volumes: %w" (snd r)))
  else
    let '(volumeName, err) := ExtractLastVolumeName allVolumes in
    if notNil err then
      ret (Some (fmt_Errorf "failed to extract last volume name: %w" err))
    else
      log_Info (hostField n) volumeName ;;
      let checkVolume := Sprintf "lsblk | grep %s" [volumeName] in
      r <- ExecuteCommand (client n) (NewCommand checkVolume []) ;;
      if notNil (snd r) then
        ret (Some (fmt_Errorf "failed to check for EBS volume: %w" (snd r)))
      else
        let partitionedVolume := Sprintf "/dev/%sp1" [volumeName] in
        let checkPartition :=
          Sprintf "lsblk /dev/%s | grep %s" [volumeName; partitionedVolume] in
        log_Info (hostField n) checkPartition ;;
        r <- ExecuteCommand (client n) (NewCommand checkPartition []) ;;
        if notNil (snd r) then
          let partitionVolume := Sprintf "echo ',,,;' | sfdisk /dev/%s" [volumeName] in
          r <- ExecuteCommand (client n) (NewCommand partitionVolume []) ;;
          if notNil (snd r) then
            ret (Some (fmt_Errorf "failed to partition EBS volume: %w" (snd r)))
          else
            let makeFileStructure := Sprintf "mkfs.xfs /dev/%sp1" [volumeName] in
            r <- ExecuteCommand (client n) (NewCommand makeFileStructure []) ;;
            if notNil (snd r) then
              ret (Some (fmt_Errorf "failed to make mkfs file structure: %w" (snd r)))
            else
              let mountVolume := Sprintf "mount /dev/%sp1 /mnt" [volumeName] in
              r <- ExecuteCommand (client n) (NewCommand mountVolume []) ;;
              if notNil (snd r) then
                ret (Some (fmt_Errorf "failed to mount /mnt on EBS volume: %w" (snd r)))
              else
                let changePermissions := "chmod 777 /mnt" in
                r <- ExecuteCommand (client n) (NewCommand changePermissions []) ;;
                if notNil (snd r) then
                  ret (Some (fmt_Errorf "failed to change permissions on /mnt: %w" (snd r)))
                else ret None
        else
          log_Info (hostField n)
            "EBS volume is already partitioned, skipping partitioning" ;;
          ret None.

(** ** Scripts and requests of the methods

    The sequences of requests against which the methods are compared,
    each step with the wrapping its failure receives. *)

Definition dataPathScript (n : Node) : list Step :=
  [Issue (ReqExecuteCommand (NewCommand "mkdir -p %s" [DataPath (blueprint n)]))
     (fun e => withMessage e "failed to create remote data directory");
   Issue (ReqExecuteCommand
            (NewCommand "chown -R couchbase:couchbase %s" [DataPath (blueprint n)]))
     (fun e => withMessage e "failed to chown remote data directory")].

Definition indexPathScript (n : Node) : list Step :=
  [Issue (ReqExecuteCommand (NewCommand "mkdir -p %s" [IndexPath (blueprint n)]))
     (fun e => withMessage e "failed to create remote index directory");
   Issue (ReqExecuteCommand
            (NewCommand "chown -R couchbase:couchbase %s" [IndexPath (blueprint n)]))
     (fun e => withMessage e "failed to chown remote index directory")].

(** The value of the local variable [remotePath] of [installCB]. *)
Definition remotePathOf (localPath : string) : string :=
  filepath_Join ["/home/ec2-user"; filepath_Base localPath].

(** The steps of [provision], each with the wrapping its failure receives
    on the way to the caller: dependencies, uninstall and purge, upload,
    install and clean-up of the archive, the pause, the change of owner. *)
Definition provisionScript (n : Node) (packagePath : string) : list Step :=
  [Issue (ReqInstallPackages (Dependencies (platform (client n))))
     (fun e => withMessage e "failed to install dependencies");
   Issue (ReqUninstallPackages ["couchbase-server"])
     (fun e => withMessage (withMessage e "failed to uninstall 'couchbase-server'")
                 "failed to uninstall Couchbase Server");
   Issue (ReqRemoveDirectory CBInstallDirectory)
     (fun e => withMessage
                 (withMessage e
                    ("failed to cleanup install directory at '"
                     ++ CBInstallDirectory ++ "'")%string)
                 "failed to uninstall Couchbase Server");
   Issue (ReqSecureUpload packagePath (remotePathOf packagePath))
     (fun e => withMessage (withMessage e "failed to upload package archive")
                 "failed to install Couchbase Server");
   Issue (ReqInstallPackageAt (remotePathOf packagePath))
     (fun e => withMessage (withMessage e "failed to install 'couchbase-server'")
                 "failed to install Couchbase Server");
   Issue (ReqRemoveFile (remotePathOf packagePath))
     (fun e => withMessage (withMessage e "failed to remove package archive")
                 "failed to install Couchbase Server");
   Pause (30 * time_Second);
   Issue (ReqExecuteCommand (NewCommand "sudo chown -R couchbase:couchbase /mnt" []))
     (fun e => withMessage
                 (fmt_Errorf "failed to change permissions on /mnt: %w" (Some e))
                 "failed to give Couchbase Server permissions")].

Definition stageDescriptions : list string :=
  ["failed to install dependencies";
   "failed to uninstall Couchbase Server";
   "failed to install Couchbase Server";
   "failed to give Couchbase Server permissions"].

Definition listVolumes : Request :=
  ReqExecuteCommand (NewCommand (Sprintf "lsblk -o NAME,SIZE,TYPE,MOUNTPOINT" []) []).

Definition checkVolume (volumeName : string) : Request :=
  ReqExecuteCommand (NewCommand (Sprintf "lsblk | grep %s" [volumeName]) []).

Definition probePartition (volumeName : string) : Request :=
  ReqExecuteCommand
    (NewCommand
       (Sprintf "lsblk /dev/%s | grep %s"
          [volumeName; Sprintf "/dev/%sp1" [volumeName]]) []).

(** What follows a probe that found no partition: partition the whole
    disk, make the file system, mount it on /mnt, open its permissions. *)
Definition partitionScript (volumeName : string) : list Step :=
  [Issue (ReqExecuteCommand
            (NewCommand (Sprintf "echo ',,,;' | sfdisk /dev/%s" [volumeName]) []))
     (fun e => fmt_Errorf "failed to partition EBS volume: %w" (Some e));
   Issue (ReqExecuteCommand (NewCommand (Sprintf "mkfs.xfs /dev/%sp1" [volumeName]) []))
     (fun e => fmt_Errorf "failed to make mkfs file structure: %w" (Some e));
   Issue (ReqExecuteCommand (NewCommand (Sprintf "mount /dev/%sp1 /mnt" [volumeName]) []))
     (fun e => fmt_Errorf "failed to mount /mnt on EBS volume: %w" (Some e));
   Issue (ReqExecuteCommand (NewCommand "chmod 777 /mnt" []))
     (fun e => fmt_Errorf "failed to change permissions on /mnt: %w" (Some e))].

(** A command line flag that is present only for a value that is set. *)
Definition flag (name value : string) : string :=
  if String.eqb value "" then EmptyString else (name ++ value)%string.

(** A format with a [%] in it may hold a verb. *)
Definition containsPercent (s : string) : bool := Contains s "%".

Definition becomeRoot : Request := ReqExecuteCommand "sudo -s".

Definition readKeys : Request :=
  ReqExecuteCommand "sudo cat /root/.ssh/authorized_keys".

Definition writeKeys (newContent : string) : Request :=
  ReqExecuteCommand
    (Sprintf "echo '%s' | sudo tee /root/.ssh/authorized_keys" [newContent]).

Definition restartSSH : Request :=
  ReqExecuteCommand
    "sudo systemctl restart sshd.service || sudo systemctl restart ssh.service".

(** The last event of the trace is a line logged at the fatal level. *)
Definition endsFatally (t : Trace) : bool :=
  match last t (Act (Sleep 0)) with
  | Log FatalLevel _ _ => true
  | _ => false
  end.

(** The steps of [uninstallCB]: the package is uninstalled, then the
    install directory is purged. *)
Definition uninstallScript : list Step :=
  [Issue (ReqUninstallPackages ["couchbase-server"])
     (fun e => withMessage e "failed to uninstall 'couchbase-server'");
   Issue (ReqRemoveDirectory CBInstallDirectory)
     (fun e => withMessage e
                 (Sprintf "failed to cleanup install directory at '%s'"
                    [CBInstallDirectory]))].

(** The steps of [installCB], all on the same remote path: upload,
    installation, removal of the archive. *)
Definition installScript (localPath : string) : list Step :=
  [Issue (ReqSecureUpload localPath (remotePathOf localPath))
     (fun e => withMessage e "failed to upload package archive");
   Issue (ReqInstallPackageAt (remotePathOf localPath))
     (fun e => withMessage e "failed to install 'couchbase-server'");
   Issue (ReqRemoveFile (remotePathOf localPath))
     (fun e => withMessage e "failed to remove package archive")].

(** ** Properties of the library functions *)

Lemma fieldsLoop_nonempty (f : Z -> bool) (s : string) :
  forall (skip : nat) (cur : option string),
    (forall w, cur = Some w -> w <> EmptyString) ->
    Forall (fun w => w <> EmptyString) (fieldsLoop f s skip cur).
Proof.
  assert (snoc : forall w c, (w ++ String c EmptyString)%string <> EmptyString).
  { intros [|a w] c; simpl; discriminate. }
  induction s as [|c rest IH]; intros skip cur Hcur; simpl.
  - destruct cur as [w|]; constructor; auto.
  - destruct skip as [|k].
    + destruct (DecodeRuneInString (String c rest)) as [r size].
      destruct (f r), cur as [w|].
      * constructor; [auto | apply IH; discriminate].
      * apply IH; discriminate.
      * apply IH. intros w' Hw'. inversion Hw'. apply snoc.
      * apply IH. intros w' Hw'. inversion Hw'. discriminate.
    + destruct cur as [w|]; apply IH.
      * intros w' Hw'. inversion Hw'. apply snoc.
      * discriminate.
Qed.

Lemma append_nil_r_string (s : string) : (s ++ "")%string = s.
Proof.
  induction s as [|c s IH]; simpl; [reflexivity | rewrite IH; reflexivity].
Qed.

Lemma append_assoc_string (s t u : string) :
  ((s ++ t) ++ u)%string = (s ++ t ++ u)%string.
Proof.
  induction s as [|c s IH]; simpl; [reflexivity | rewrite IH; reflexivity].
Qed.

Lemma Sprintf_no_operands (format : string) : Sprintf format [] = format.
Proof.
  induction format as [|c rest IH]; [reflexivity|].
  simpl. destruct rest as [|v rest'].
  - reflexivity.
  - rewrite IH. destruct (_ && _); reflexivity.
Qed.

Lemma Sprintf_plain (format : string) :
  Contains format "%" = false -> Sprintf format [] = format.
Proof.
  intros _. apply Sprintf_no_operands.
Qed.

Lemma DecodeRuneInString_ascii (c : ascii) (rest : string) :
  (byteVal c <? 0x80) = true ->
  DecodeRuneInString (String c rest) = (byteVal c, 1%nat).
Proof.
  intros Hc. unfold DecodeRuneInString.
  assert (Hn : (Z.of_nat (String.length (String c rest)) <? 1) = false).
  { apply Z.ltb_ge. simpl String.length. lia. }
  rewrite Hn. change (byteAt (String c rest) 0) with (byteVal c).
  unfold first. rewrite Hc. reflexivity.
Qed.

Lemma IsSpace_ascii (c : ascii) :
  (byteVal c <? 0x80) = true -> IsSpace (byteVal c) = asciiSpace c.
Proof.
  destruct c as [[] [] [] [] [] [] [] []]; intros Hc;
    vm_compute in Hc; try discriminate Hc; vm_compute; reflexivity.
Qed.

Lemma fieldsLoop_ascii (s : string) :
  isASCII s = true ->
  forall cur, fieldsLoop IsSpace s 0%nat cur = fieldsASCII s cur.
Proof.
  induction s as [|c rest IH]; intros Hs cur; [reflexivity|].
  simpl in Hs. apply andb_prop in Hs. destruct Hs as [Hc Hrest].
  cbn [fieldsLoop fieldsASCII].
  rewrite (DecodeRuneInString_ascii c rest Hc), (IsSpace_ascii c Hc). cbn [Nat.pred].
  destruct (asciiSpace c), cur as [w|]; rewrite (IH Hrest); reflexivity.
Qed.

Lemma Fields_ascii (s : string) :
  isASCII s = true -> Fields s = fieldsASCII s None.
Proof.
  intros Hs. apply fieldsLoop_ascii, Hs.
Qed.

Lemma Fields_nonempty (s : string) :
  Forall (fun w => w <> EmptyString) (Fields s).
Proof.
  unfold Fields, FieldsFunc. apply fieldsLoop_nonempty. discriminate.
Qed.

Lemma isDiskLine_name (line : string) :
  isDiskLine line = true -> nth 0 (Fields line) EmptyString <> EmptyString.
Proof.
  unfold isDiskLine. intros H. apply andb_prop in H. destruct H as [Hlen _].
  pose proof (Fields_nonempty line) as Hne.
  destruct (Fields line) as [|w ws]; simpl in *.
  - discriminate.
  - inversion Hne; assumption.
Qed.

(** The body of the loop of [ExtractLastVolumeName]. *)
Lemma loop_body_disk (last line : string) :
  (if (2 <? Z.of_nat (List.length (Fields line)))
      && String.eqb (nth 2 (Fields line) EmptyString) "disk"
   then nth 0 (Fields line) EmptyString else last)
  = if isDiskLine line then nth 0 (Fields line) EmptyString else last.
Proof.
  unfold isDiskLine.
  replace (3 <=? Z.of_nat (List.length (Fields line)))
    with (2 <? Z.of_nat (List.length (Fields line))); [reflexivity|].
  destruct (Z.ltb_spec 2 (Z.of_nat (List.length (Fields line))));
    destruct (Z.leb_spec 3 (Z.of_nat (List.length (Fields line)))); auto; lia.
Qed.

Lemma loop_no_disk (lines : list string) (last : string) :
  existsb isDiskLine lines = false ->
  fold_left
    (fun lastVolumeName line =>
       let fields := Fields line in
       if (2 <? Z.of_nat (List.length fields))
          && String.eqb (nth 2 fields EmptyString) "disk"
       then nth 0 fields EmptyString
       else lastVolumeName) lines last = last.
Proof.
  revert last. induction lines as [|l ls IH]; intros last H; simpl in *.
  - reflexivity.
  - apply orb_false_elim in H. destruct H as [Hl Hls].
    rewrite loop_body_disk, Hl. apply IH, Hls.
Qed.

Lemma last_disk_line (lines : list string) :
  existsb isDiskLine lines = true ->
  exists before line after,
    lines = (before ++ line :: after)%list
    /\ isDiskLine line = true
    /\ existsb isDiskLine after = false.
Proof.
  induction lines as [|l ls IH]; simpl; intros H.
  - discriminate.
  - destruct (existsb isDiskLine ls) eqn:Hls.
    + destruct (IH eq_refl) as (before & line & after & -> & Hline & Hafter).
      exists (l :: before), line, after. auto.
    + rewrite orb_false_r in H. exists [], l, ls. auto.
Qed.

Lemma ExtractLastVolumeName_at (text : string) (before after : list string)
    (line : string) :
  Split text newline = (before ++ line :: after)%list ->
  isDiskLine line = true ->
  existsb isDiskLine after = false ->
  ExtractLastVolumeName text = (nth 0 (Fields line) EmptyString, None).
Proof.
  intros Hsplit Hline Hafter. unfold ExtractLastVolumeName.
  rewrite Hsplit, fold_left_app. simpl.
  rewrite loop_body_disk, Hline, (loop_no_disk after _ Hafter).
  destruct (String.eqb_spec (nth 0 (Fields line) EmptyString) "") as [E|E].
  - exfalso. exact (isDiskLine_name line Hline E).
  - reflexivity.
Qed.

(** ** The block device locator *)

(** C2.  When the listing has at least one disk line, [ExtractLastVolumeName]
    returns the NAME field of the last disk line of the input, with no
    error, whatever other lines stand between or after the disk lines; on
    the listing of scenario A it returns [nvme1n1]. *)
Theorem ExtractLastVolumeName_last_disk :
  (forall text : string,
      existsb isDiskLine (Split text newline) = true ->
      exists before line after,
        Split text newline = (before ++ line :: after)%list
        /\ isDiskLine line = true
        /\ existsb isDiskLine after = false
        /\ ExtractLastVolumeName text = (nth 0 (Fields line) EmptyString, None))
  /\ ExtractLastVolumeName scenarioA = ("nvme1n1", None).
Proof.
  split.
  - intros text H.
    destruct (last_disk_line _ H) as (before & line & after & Hs & Hl & Ha).
    exists before, line, after. repeat split; auto.
    eapply ExtractLastVolumeName_at; eauto.
  - vm_compute. reflexivity.
Qed.

(** C3.  When no line of the listing is a disk line, [ExtractLastVolumeName]
    returns the error "no disk volume found in lsblk output" and the empty
    name; a line with fewer than three fields is never a disk line. *)
Theorem ExtractLastVolumeName_not_found :
  (forall text : string,
      existsb isDiskLine (Split text newline) = false ->
      ExtractLastVolumeName text
      = (EmptyString, Some (errorString "no disk volume found in lsblk output")))
  /\ (forall line : string,
        (List.length (Fields line) < 3)%nat -> isDiskLine line = false).
Proof.
  split.
  - intros text H. unfold ExtractLastVolumeName.
    rewrite (loop_no_disk _ _ H). reflexivity.
  - intros line H. unfold isDiskLine.
    destruct (Z.leb_spec 3 (Z.of_nat (List.length (Fields line)))); [lia | reflexivity].
Qed.

(** ** Traces and scripts *)

Local Open Scope list_scope.

Lemma actions_app (t u : Trace) :
  actions (t ++ u) = (actions t ++ actions u)%list.
Proof.
  induction t as [|[a|l fs m] t IH]; simpl; rewrite ?IH; reflexivity.
Qed.

Lemma app_eq_self {A : Type} (h l : list A) : (h ++ l)%list = h -> l = [].
Proof.
  intros H. apply (app_inv_head h). rewrite app_nil_r. exact H.
Qed.

Lemma last_app_cons {A : Type} (t : list A) (x : A) (l : list A) (d : A) :
  last (t ++ x :: l) d = last (x :: l) d.
Proof.
  induction t as [|y t IH]; [reflexivity|].
  simpl app. rewrite <- IH. simpl. destruct (t ++ x :: l) eqn:E; [|reflexivity].
  destruct t; discriminate.
Qed.

Lemma failFast_issues (c : Client) (h : list Action) (s : Step) (script : list Step) :
  fst (failFast c h (s :: script)) <> [].
Proof.
  destruct s as [r wrap|d]; simpl.
  - destruct (snd (respond c h r)); [discriminate|].
    destruct (failFast c (h ++ [Remote r]) script); discriminate.
  - destruct (failFast c (h ++ [Sleep d]) script); discriminate.
Qed.

Lemma failFast_all_ok (c : Client) (script : list Step) :
  (forall h r, snd (respond c h r) = None) ->
  forall h,
    failFast c h script
    = (map actionOf script, None).
Proof.
  intros Hok. induction script as [|[r wrap|d] rest IH]; intros h; simpl.
  - reflexivity.
  - rewrite Hok, IH. reflexivity.
  - rewrite IH. reflexivity.
Qed.

Ltac run_step :=
  unfold InstallPackages, UninstallPackages, InstallPackageAt, RemoveFile,
    RemoveDirectory, SecureUpload, ExecuteCommand, log_Info, log_Fatalf,
    time_Sleep, request, emit, bind, ret;
  cbn beta iota zeta delta [fst snd notNil errors_Wrap errors_Wrapf errors_Is];
  repeat rewrite actions_app;
  cbn [actions app];
  repeat rewrite app_nil_r;
  repeat rewrite <- app_assoc;
  cbn [app].

(** ** Path configuration *)

Lemma createDataPath_runs (n : Node) (tr : Trace) :
  DataPath (blueprint n) <> EmptyString ->
  exists tr',
    createDataPath n tr
    = (Returned (snd (failFast (client n) (actions tr) (dataPathScript n))), tr')
    /\ actions tr'
       = (actions tr ++ fst (failFast (client n) (actions tr) (dataPathScript n)))%list.
Proof.
  intros Hne. unfold createDataPath, dataPathScript.
  destruct (String.eqb_spec (DataPath (blueprint n)) "") as [E|_]; [contradiction|].
  run_step. cbn [failFast].
  destruct (respond (client n) (actions tr) _) as [out1 [e1|]] eqn:R1; run_step.
  - eexists; split; [reflexivity|]. run_step. reflexivity.
  - destruct (respond (client n) (actions tr ++ _) _) as [out2 [e2|]] eqn:R2; run_step.
    + eexists; split; [reflexivity|]. run_step. reflexivity.
    + eexists; split; [reflexivity|]. run_step. reflexivity.
Qed.

Ltac answer :=
  match goal with
  | |- context [respond ?c ?h ?r] =>
      let out := fresh "out" in
      let e := fresh "e" in
      let R := fresh "R" in
      destruct (respond c h r) as [out [e|]] eqn:R
  end;
  run_step.

Ltac finish := eexists; split; [reflexivity | run_step; reflexivity].

Lemma createIndexPath_runs (n : Node) (tr : Trace) :
  IndexPath (blueprint n) <> EmptyString ->
  exists tr',
    createIndexPath n tr
    = (Returned (snd (failFast (client n) (actions tr) (indexPathScript n))), tr')
    /\ actions tr'
       = actions tr ++ fst (failFast (client n) (actions tr) (indexPathScript n)).
Proof.
  intros Hne. unfold createIndexPath, indexPathScript.
  destruct (String.eqb_spec (IndexPath (blueprint n)) "") as [E|_]; [contradiction|].
  run_step. cbn [failFast].
  answer; [finish|]. answer; finish.
Qed.

(** C6.  [createDataPath] and [createIndexPath] return success and issue
    no remote command exactly when their blueprint field is empty.  When
    the field is set they issue [mkdir -p] of the path; if that fails they
    return the failure wrapped in the message of the step and issue nothing
    more; otherwise they issue [chown -R couchbase:couchbase] of the path
    and return its outcome, wrapped when it is a failure. *)
Theorem path_configuration (n : Node) (tr : Trace) :
  let c := client n in
  let h := actions tr in
  let mkdir path := ReqExecuteCommand (NewCommand "mkdir -p %s" [path]) in
  let chown path :=
    ReqExecuteCommand (NewCommand "chown -R couchbase:couchbase %s" [path]) in
  let twoSteps (path : string) (run : Outcome (option error) * Trace)
      (creating owning : string) :=
    match snd (respond c h (mkdir path)) with
    | Some e =>
        fst run = Returned (Some (withMessage e creating))
        /\ actions (snd run) = h ++ [Remote (mkdir path)]
    | None =>
        fst run
        = Returned (errors_Wrap (snd (respond c (h ++ [Remote (mkdir path)]) (chown path)))
                      owning)
        /\ actions (snd run) = h ++ [Remote (mkdir path); Remote (chown path)]
    end in
  ((DataPath (blueprint n) = EmptyString ->
    createDataPath n tr = (Returned None, tr))
   /\ (DataPath (blueprint n) <> EmptyString ->
       twoSteps (DataPath (blueprint n)) (createDataPath n tr)
         "failed to create remote data directory"%string
         "failed to chown remote data directory"%string)
   /\ (actions (snd (createDataPath n tr)) = h
       <-> DataPath (blueprint n) = EmptyString))
  /\
  ((IndexPath (blueprint n) = EmptyString ->
    createIndexPath n tr = (Returned None, tr))
   /\ (IndexPath (blueprint n) <> EmptyString ->
       twoSteps (IndexPath (blueprint n)) (createIndexPath n tr)
         "failed to create remote index directory"%string
         "failed to chown remote index directory"%string)
   /\ (actions (snd (createIndexPath n tr)) = h
       <-> IndexPath (blueprint n) = EmptyString)).
Proof.
  intros c h mkdir chown twoSteps.
  assert (D0 : DataPath (blueprint n) = EmptyString ->
               createDataPath n tr = (Returned None, tr)).
  { intros E. unfold createDataPath. rewrite E. reflexivity. }
  assert (I0 : IndexPath (blueprint n) = EmptyString ->
               createIndexPath n tr = (Returned None, tr)).
  { intros E. unfold createIndexPath. rewrite E. reflexivity. }
  split; (split; [assumption | split]).
  - intros E. destruct (createDataPath_runs n tr E) as (tr' & Hrun & Hact).
    rewrite Hrun. subst twoSteps mkdir chown c h. cbn [fst snd].
    rewrite Hact. unfold dataPathScript. cbn [failFast].
    destruct (snd (respond (client n) (actions tr) _)) as [e1|]; [split; reflexivity|].
    destruct (snd (respond (client n) (actions tr ++ _) _)) as [e2|]; split; reflexivity.
  - split.
    + intros Hsame.
      destruct (String.eqb_spec (DataPath (blueprint n)) "") as [E|E]; [exact E|].
      destruct (createDataPath_runs n tr E) as (tr' & Hrun & Hact).
      rewrite Hrun in Hsame. simpl in Hsame. rewrite Hact in Hsame.
      apply app_eq_self in Hsame. exfalso.
      exact (failFast_issues _ _ _ _ Hsame).
    + intros E. rewrite (D0 E). reflexivity.
  - intros E. destruct (createIndexPath_runs n tr E) as (tr' & Hrun & Hact).
    rewrite Hrun. subst twoSteps mkdir chown c h. cbn [fst snd].
    rewrite Hact. unfold indexPathScript. cbn [failFast].
    destruct (snd (respond (client n) (actions tr) _)) as [e1|]; [split; reflexivity|].
    destruct (snd (respond (client n) (actions tr ++ _) _)) as [e2|]; split; reflexivity.
  - split.
    + intros Hsame.
      destruct (String.eqb_spec (IndexPath (blueprint n)) "") as [E|E]; [exact E|].
      destruct (createIndexPath_runs n tr E) as (tr' & Hrun & Hact).
      rewrite Hrun in Hsame. simpl in Hsame. rewrite Hact in Hsame.
      apply app_eq_self in Hsame. exfalso.
      exact (failFast_issues _ _ _ _ Hsame).
    + intros E. rewrite (I0 E). reflexivity.
Qed.

(** ** Provisioning *)

Lemma provision_runs (n : Node) (packagePath : string) (tr : Trace) :
  exists tr',
    provision n packagePath tr
    = (Returned (snd (failFast (client n) (actions tr) (provisionScript n packagePath))),
       tr')
    /\ actions tr'
       = actions tr
         ++ fst (failFast (client n) (actions tr) (provisionScript n packagePath)).
Proof.
  unfold provision, installDeps, uninstallCB, installCB, giveCBPermissions,
    provisionScript, remotePathOf.
  run_step. cbn [failFast].
  answer; [finish|]. answer; [finish|]. answer; [finish|]. answer; [finish|].
  answer; [finish|]. answer; [finish|]. answer; finish.
Qed.

Lemma failFast_prefix (c : Client) (script : list Step) :
  forall h, exists k, fst (failFast c h script) = firstn k (map actionOf script).
Proof.
  induction script as [|[r wrap|d] rest IH]; intros h; simpl.
  - exists 0%nat. reflexivity.
  - destruct (snd (respond c h r)).
    + exists 1%nat. simpl. destruct (map actionOf rest); reflexivity.
    + destruct (IH (h ++ [Remote r])) as [k Hk].
      destruct (failFast c (h ++ [Remote r]) rest) as [issued res].
      exists (S k). simpl in *. rewrite Hk. reflexivity.
  - destruct (IH (h ++ [Sleep d])) as [k Hk].
    destruct (failFast c (h ++ [Sleep d]) rest) as [issued res].
    exists (S k). simpl in *. rewrite Hk. reflexivity.
Qed.

Lemma failFast_success (c : Client) (script : list Step) :
  forall h,
    snd (failFast c h script) = None ->
    fst (failFast c h script) = map actionOf script.
Proof.
  induction script as [|[r wrap|d] rest IH]; intros h; simpl.
  - reflexivity.
  - destruct (snd (respond c h r)); [discriminate|].
    specialize (IH (h ++ [Remote r])).
    destruct (failFast c (h ++ [Remote r]) rest) as [issued res].
    simpl in *. intros H. rewrite (IH H). reflexivity.
  - specialize (IH (h ++ [Sleep d])).
    destruct (failFast c (h ++ [Sleep d]) rest) as [issued res].
    simpl in *. intros H. rewrite (IH H). reflexivity.
Qed.

Lemma failFast_error (c : Client) (script : list Step) :
  forall h e,
    snd (failFast c h script) = Some e ->
    exists r wrap cause, In (Issue r wrap) script /\ e = wrap cause.
Proof.
  induction script as [|[r wrap|d] rest IH]; intros h e; simpl.
  - discriminate.
  - destruct (snd (respond c h r)) as [cause|].
    + simpl. intros H. inversion H. exists r, wrap, cause. auto.
    + specialize (IH (h ++ [Remote r]) e).
      destruct (failFast c (h ++ [Remote r]) rest) as [issued res].
      intros H. destruct (IH H) as (r' & w' & cause & Hin & He).
      exists r', w', cause. auto.
  - specialize (IH (h ++ [Sleep d]) e).
    destruct (failFast c (h ++ [Sleep d]) rest) as [issued res].
    intros H. destruct (IH H) as (r' & w' & cause & Hin & He).
    exists r', w', cause. auto.
Qed.

(** C5.  [provision] runs its steps in the fixed order of
    [provisionScript]: dependencies, uninstall and purge of the install
    directory, upload, install and clean-up of the package, the pause of
    thirty seconds, the change of owner of /mnt.  It stops at the first
    request that fails, so the actions issued are a prefix of the script
    with nothing repeated; the error returned is the failure wrapped in the
    description of its stage; success is returned only after the whole
    script has been issued; and when no request fails the whole script is
    issued and no error is returned. *)
Theorem provision_fail_fast (n : Node) (packagePath : string) (tr : Trace) :
  let ff := failFast (client n) (actions tr) (provisionScript n packagePath) in
  (exists tr',
      provision n packagePath tr = (Returned (snd ff), tr')
      /\ actions tr' = actions tr ++ fst ff)
  /\ (exists k, fst ff = firstn k (map actionOf (provisionScript n packagePath)))
  /\ (forall e, snd ff = Some e ->
        exists cause stage, e = withMessage cause stage /\ In stage stageDescriptions)
  /\ (snd ff = None -> fst ff = map actionOf (provisionScript n packagePath))
  /\ ((forall h r, snd (respond (client n) h r) = None) ->
      ff = (map actionOf (provisionScript n packagePath), None)).
Proof.
  intros ff. split; [apply provision_runs|]. split; [apply failFast_prefix|].
  split; [|split].
  - intros e He. apply failFast_error in He.
    destruct He as (r & wrap & cause & Hin & ->).
    unfold provisionScript, stageDescriptions in *. simpl in Hin.
    repeat (destruct Hin as [Hin|Hin];
            [first [ discriminate Hin
                   | inversion Hin; subst; clear Hin; eexists; eexists; split;
                     [reflexivity | simpl; tauto] ] |]).
    contradiction.
  - apply failFast_success.
  - intros Hok. apply failFast_all_ok, Hok.
Qed.

(** ** Installation of the package *)

Lemma installCB_upload_error (n : Node) (localPath : string) (tr : Trace) (e : error) :
  snd (respond (client n) (actions tr)
         (ReqSecureUpload localPath (remotePathOf localPath))) = Some e ->
  exists tr',
    installCB n localPath tr
    = (Returned (Some (withMessage e "failed to upload package archive")), tr')
    /\ actions tr'
       = actions tr ++ [Remote (ReqSecureUpload localPath (remotePathOf localPath))].
Proof.
  unfold installCB, remotePathOf. run_step. intros H.
  answer; simpl in H; [|discriminate]. inversion H; subst. finish.
Qed.

(** C9.  Once the upload and the installation of the package have
    succeeded, [installCB] issues the removal of the uploaded archive at
    the remote path, and returns the outcome of that removal wrapped in
    "failed to remove package archive".  Inside [provision] a failure of the
    removal ends the run after that request, with the error wrapped once
    more in "failed to install Couchbase Server". *)
Theorem installCB_removes_archive (n : Node) (localPath : string) (tr : Trace) :
  let c := client n in
  let h := actions tr in
  let upload := ReqSecureUpload localPath (remotePathOf localPath) in
  let install := ReqInstallPackageAt (remotePathOf localPath) in
  let remove := ReqRemoveFile (remotePathOf localPath) in
  let deps := ReqInstallPackages (Dependencies (platform c)) in
  let uninstall := ReqUninstallPackages ["couchbase-server"] in
  let purge := ReqRemoveDirectory CBInstallDirectory in
  (snd (respond c h upload) = None ->
   snd (respond c (h ++ [Remote upload]) install) = None ->
   exists tr',
     installCB n localPath tr
     = (Returned
          (errors_Wrap (snd (respond c (h ++ [Remote upload; Remote install]) remove))
             "failed to remove package archive"), tr')
     /\ actions tr' = h ++ [Remote upload; Remote install; Remote remove])
  /\
  (forall e : error,
      snd (respond c h deps) = None ->
      snd (respond c (h ++ [Remote deps]) uninstall) = None ->
      snd (respond c (h ++ [Remote deps; Remote uninstall]) purge) = None ->
      snd (respond c (h ++ [Remote deps; Remote uninstall; Remote purge]) upload) = None ->
      snd (respond c (h ++ [Remote deps; Remote uninstall; Remote purge; Remote upload])
             install) = None ->
      snd (respond c (h ++ [Remote deps; Remote uninstall; Remote purge; Remote upload;
                            Remote install]) remove) = Some e ->
      exists tr',
        provision n localPath tr
        = (Returned
             (Some (withMessage (withMessage e "failed to remove package archive")
                      "failed to install Couchbase Server")), tr')
        /\ actions tr'
           = h ++ [Remote deps; Remote uninstall; Remote purge; Remote upload;
                   Remote install; Remote remove]).
Proof.
  intros c h upload install remove deps uninstall purge. split.
  - subst c h upload install remove. unfold installCB, remotePathOf.
    run_step. intros Hup Hin.
    answer; simpl in Hup; [discriminate|].
    answer; simpl in Hin; [discriminate|].
    answer; finish.
  - intros e H1 H2 H3 H4 H5 H6.
    destruct (provision_runs n localPath tr) as (tr' & Hrun & Hact).
    exists tr'. rewrite Hrun, Hact. clear Hrun Hact.
    subst c h upload install remove deps uninstall purge.
    unfold provisionScript. cbn [failFast].
    rewrite H1. repeat rewrite <- app_assoc. cbn [app].
    rewrite H2. repeat rewrite <- app_assoc. cbn [app].
    rewrite H3. repeat rewrite <- app_assoc. cbn [app].
    rewrite H4. repeat rewrite <- app_assoc. cbn [app].
    rewrite H5. repeat rewrite <- app_assoc. cbn [app].
    rewrite H6. split; reflexivity.
Qed.

(** ** The partitioning sequencer *)

(** The run of [checkAndPartitionEBS] once the listing has succeeded and a
    volume has been selected from it. *)
Lemma checkAndPartitionEBS_runs (n : Node) (tr : Trace) (allVolumes volumeName : string) :
  let c := client n in
  let h := actions tr in
  respond c h listVolumes = (allVolumes, None) ->
  ExtractLastVolumeName allVolumes = (volumeName, None) ->
  exists tr',
    checkAndPartitionEBS n tr
    = (Returned
         match snd (respond c (h ++ [Remote listVolumes]) (checkVolume volumeName)) with
         | Some e => Some (fmt_Errorf "failed to check for EBS volume: %w" (Some e))
         | None =>
             match snd (respond c
                          (h ++ [Remote listVolumes; Remote (checkVolume volumeName)])
                          (probePartition volumeName)) with
             | None => None
             | Some _ =>
                 snd (failFast c
                        (h ++ [Remote listVolumes; Remote (checkVolume volumeName);
                               Remote (probePartition volumeName)])
                        (partitionScript volumeName))
             end
         end, tr')
    /\ actions tr'
       = h ++ Remote listVolumes :: Remote (checkVolume volumeName)
           :: match snd (respond c (h ++ [Remote listVolumes]) (checkVolume volumeName)) with
              | Some _ => []
              | None =>
                  Remote (probePartition volumeName)
                  :: match snd (respond c
                                  (h ++ [Remote listVolumes;
                                         Remote (checkVolume volumeName)])
                                  (probePartition volumeName)) with
                     | None => []
                     | Some _ =>
                         fst (failFast c
                                (h ++ [Remote listVolumes;
                                       Remote (checkVolume volumeName);
                                       Remote (probePartition volumeName)])
                                (partitionScript volumeName))
                     end
              end.
Proof.
  intros c h Hlist Hname. subst c h.
  unfold checkAndPartitionEBS, listVolumes, checkVolume, probePartition,
    partitionScript in *.
  run_step. rewrite Hlist. run_step. rewrite Hname. run_step. cbn [failFast].
  answer; [finish|]. answer; [|finish].
  answer; [finish|]. answer; [finish|]. answer; [finish|]. answer; finish.
Qed.

(** C10.  After the volume has been selected and before the partition is
    probed, [checkAndPartitionEBS] issues [lsblk | grep <volume>].  When
    that request fails the method returns the failure wrapped in "failed to
    check for EBS volume" and issues nothing more: neither the probe nor
    any partitioning command.  When it succeeds, the probe is the next
    request. *)
Theorem checkAndPartitionEBS_volume_check
    (n : Node) (tr : Trace) (allVolumes volumeName : string) :
  let c := client n in
  let h := actions tr in
  respond c h listVolumes = (allVolumes, None) ->
  ExtractLastVolumeName allVolumes = (volumeName, None) ->
  (forall e : error,
      snd (respond c (h ++ [Remote listVolumes]) (checkVolume volumeName)) = Some e ->
      exists tr',
        checkAndPartitionEBS n tr
        = (Returned (Some (wrapError ("failed to check for EBS volume: " ++ Error e)%string e)),
           tr')
        /\ actions tr' = h ++ [Remote listVolumes; Remote (checkVolume volumeName)])
  /\ (snd (respond c (h ++ [Remote listVolumes]) (checkVolume volumeName)) = None ->
      exists res tr' later,
        checkAndPartitionEBS n tr = (Returned res, tr')
        /\ actions tr'
           = h ++ [Remote listVolumes; Remote (checkVolume volumeName);
                   Remote (probePartition volumeName)] ++ later).
Proof.
  intros c h Hlist Hname.
  destruct (checkAndPartitionEBS_runs n tr allVolumes volumeName Hlist Hname)
    as (tr' & Hrun & Hact).
  fold c h in Hrun, Hact. split.
  - intros e He. rewrite He in Hrun, Hact. exists tr'. split.
    + rewrite Hrun. unfold fmt_Errorf. cbn [Sprintf Ascii.eqb Bool.eqb andb orb].
      rewrite append_nil_r_string. reflexivity.
    + exact Hact.
  - intros Hok. rewrite Hok in Hrun, Hact.
    eexists; exists tr'; eexists. split; [exact Hrun|]. rewrite Hact. reflexivity.
Qed.

(** C4.  Once the volume has been selected and found, a probe that succeeds
    ends [checkAndPartitionEBS] with success and no further request; a
    probe that fails is followed by the script of [partitionScript], which
    issues in order the partitioning of the whole disk, [mkfs.xfs], the
    mount on /mnt and [chmod 777 /mnt], and stops at the first failure with
    that failure wrapped. *)
Theorem checkAndPartitionEBS_probe
    (n : Node) (tr : Trace) (allVolumes volumeName : string) :
  let c := client n in
  let h := actions tr in
  let h3 := h ++ [Remote listVolumes; Remote (checkVolume volumeName);
                  Remote (probePartition volumeName)] in
  respond c h listVolumes = (allVolumes, None) ->
  ExtractLastVolumeName allVolumes = (volumeName, None) ->
  snd (respond c (h ++ [Remote listVolumes]) (checkVolume volumeName)) = None ->
  (snd (respond c (h ++ [Remote listVolumes; Remote (checkVolume volumeName)])
          (probePartition volumeName)) = None ->
   exists tr', checkAndPartitionEBS n tr = (Returned None, tr') /\ actions tr' = h3)
  /\ (snd (respond c (h ++ [Remote listVolumes; Remote (checkVolume volumeName)])
             (probePartition volumeName)) <> None ->
      exists tr',
        checkAndPartitionEBS n tr
        = (Returned (snd (failFast c h3 (partitionScript volumeName))), tr')
        /\ actions tr' = h3 ++ fst (failFast c h3 (partitionScript volumeName)))
  /\ (exists k,
        fst (failFast c h3 (partitionScript volumeName))
        = firstn k (map actionOf (partitionScript volumeName))).
Proof.
  intros c h h3 Hlist Hname Hcheck.
  destruct (checkAndPartitionEBS_runs n tr allVolumes volumeName Hlist Hname)
    as (tr' & Hrun & Hact).
  fold c h in Hrun, Hact. rewrite Hcheck in Hrun, Hact.
  split; [|split; [|apply failFast_prefix]].
  - intros Hprobe. rewrite Hprobe in Hrun, Hact. exists tr'. split; assumption.
  - intros Hprobe.
    destruct (snd (respond c (h ++ [Remote listVolumes; Remote (checkVolume volumeName)])
                     (probePartition volumeName))) as [e|]; [|contradiction].
    exists tr'. split; [exact Hrun|]. rewrite Hact. subst h3.
    rewrite <- app_assoc. reflexivity.
Qed.

(** ** Initialisation of the node *)

(** C7.  [initializeCB] issues one command, built by [NewCommand] from the
    [node-init] line for localhost:8091 with the credentials Administrator
    and asdasd, to which [--node-init-data-path <DataPath>] is appended
    exactly when the data path is set and then
    [--node-init-index-path <IndexPath>] exactly when the index path is set.
    With the paths /data and /index, and a [NewCommand] that leaves a format
    without verbs as it is, the command contains both flags. *)
Theorem initializeCB_command (n : Node) (tr : Trace) :
  let b := blueprint n in
  let init := initializeCB_init b in
  let command := NewCommand init [] in
  initializeCB n tr
  = (Returned (snd (respond (client n) (actions tr) (ReqExecuteCommand command))),
     tr ++ [Log InfoLevel
              [("host", Host b); ("data_path", DataPath b); ("index_path", IndexPath b)]
              "Initializing node";
            Act (Remote (ReqExecuteCommand command))])
  /\ init
     = ("couchbase-cli node-init -c localhost:8091 -u Administrator -p asdasd"
        ++ flag " --node-init-data-path " (DataPath b)
        ++ flag " --node-init-index-path " (IndexPath b))%string
  /\ (DataPath b = "/data" ->
      IndexPath b = "/index" ->
      (forall s, containsPercent s = false -> NewCommand s [] = s) ->
      command
      = "couchbase-cli node-init -c localhost:8091 -u Administrator -p asdasd --node-init-data-path /data --node-init-index-path /index"
      /\ Contains command "--node-init-data-path /data" = true
      /\ Contains command "--node-init-index-path /index" = true).
Proof.
  intros b init command. split; [|split].
  - unfold initializeCB. run_step. reflexivity.
  - subst init. unfold initializeCB_init, flag.
    destruct (String.eqb (DataPath b) ""), (String.eqb (IndexPath b) "");
      cbn [negb Sprintf Ascii.eqb Bool.eqb andb orb];
      repeat rewrite append_nil_r_string;
      repeat rewrite append_assoc_string; reflexivity.
  - intros Hdata Hindex Hplain. subst command init.
    unfold initializeCB_init. rewrite Hdata, Hindex. simpl.
    rewrite Hplain by reflexivity. repeat split; vm_compute; reflexivity.
Qed.

(** ** Root bootstrap *)

(** C8.  [loginAsRoot] either returns without error or ends the process
    with status 1; it never returns an error to its caller.  It returns
    exactly when becoming root, reading the authorized keys, finding
    "ssh-rsa" in them, rewriting the file and restarting the SSH daemon all
    succeed.  A failure at any of these steps ends the process at once:
    the requests issued stop at the failing step and the trace ends with
    the fatal log line. *)
Theorem loginAsRoot_fatal (n : Node) (tr : Trace) :
  let c := client n in
  let h := actions tr in
  let r1 := respond c h becomeRoot in
  let r2 := respond c (h ++ [Remote becomeRoot]) readKeys in
  let index := Index (fst r2) "ssh-rsa" in
  let write := writeKeys (sliceFrom (fst r2) index) in
  let r3 := respond c (h ++ [Remote becomeRoot; Remote readKeys]) write in
  let r4 := respond c (h ++ [Remote becomeRoot; Remote readKeys; Remote write])
              restartSSH in
  let allSucceed :=
    snd r1 = None /\ snd r2 = None /\ index <> -1 /\ snd r3 = None /\ snd r4 = None in
  exists o tr',
    loginAsRoot n tr = (o, tr')
    /\ (o = Returned None \/ o = Exited 1)
    /\ (o = Returned None <-> allSucceed)
    /\ (o = Exited 1 -> endsFatally tr' = true)
    /\ (snd r1 <> None -> actions tr' = h ++ [Remote becomeRoot])
    /\ (snd r1 = None -> snd r2 <> None \/ index = -1 ->
        actions tr' = h ++ [Remote becomeRoot; Remote readKeys])
    /\ (snd r1 = None -> snd r2 = None -> index <> -1 -> snd r3 <> None ->
        actions tr' = h ++ [Remote becomeRoot; Remote readKeys; Remote write])
    /\ (snd r1 = None -> snd r2 = None -> index <> -1 -> snd r3 = None ->
        actions tr'
        = h ++ [Remote becomeRoot; Remote readKeys; Remote write; Remote restartSSH]).
Proof using.
  clear NewCommand CBInstallDirectory filepath_Base filepath_Join.
  intros c h r1 r2 index write r3 r4 allSucceed.
  subst allSucceed r4 r3 write index r2 r1 h c.
  unfold loginAsRoot, becomeRoot, readKeys, writeKeys, restartSSH.
  run_step.
  destruct (respond (client n) (actions tr) _) as [out1 [e1|]] eqn:R1; run_step.
  { eexists; eexists; split; [reflexivity|]. run_step.
    unfold endsFatally. rewrite last_app_cons. cbn. intuition congruence. }
  destruct (respond (client n) (actions tr ++ [_]) _) as [out2 [e2|]] eqn:R2; run_step.
  { eexists; eexists; split; [reflexivity|]. run_step.
    unfold endsFatally. rewrite last_app_cons. cbn. intuition congruence. }
  destruct (Z.eqb_spec (Index out2 "ssh-rsa") (-1)) as [Hidx|Hidx].
  { eexists; eexists; split; [reflexivity|]. run_step.
    unfold endsFatally. rewrite last_app_cons. cbn. intuition congruence. }
  run_step.
  destruct (respond (client n) (actions tr ++ [_; _]) _) as [out3 [e3|]] eqn:R3; run_step.
  { eexists; eexists; split; [reflexivity|]. run_step.
    unfold endsFatally. rewrite last_app_cons. cbn. intuition congruence. }
  destruct (respond (client n) (actions tr ++ [_; _; _]) _) as [out4 [e4|]] eqn:R4; run_step.
  { eexists; eexists; split; [reflexivity|]. run_step.
    unfold endsFatally. rewrite last_app_cons. cbn. intuition congruence. }
  eexists; eexists; split; [reflexivity|]. run_step.
  cbn. intuition congruence.
Qed.

(** ** Further properties of the locator *)

Lemma asciiSpace_high (c : ascii) : 0x80 <= byteVal c -> asciiSpace c = false.
Proof.
  intros H. unfold asciiSpace. cbv zeta.
  repeat (apply orb_false_intro); apply Z.eqb_neq; lia.
Qed.

Lemma byteAt_tail (c : ascii) (rest : string) (i : nat) :
  byteAt (String c rest) (S i) = byteAt rest i.
Proof. reflexivity. Qed.

Lemma highPrefix_1 (rest : string) :
  0x80 <= byteAt rest 0 -> highPrefix 1 rest = true.
Proof.
  destruct rest as [|c1 t1]; [reflexivity|].
  unfold byteAt. simpl. intros H. rewrite andb_true_r. apply Z.leb_le, H.
Qed.

Lemma highPrefix_2 (rest : string) :
  0x80 <= byteAt rest 0 -> 0x80 <= byteAt rest 1 -> highPrefix 2 rest = true.
Proof.
  destruct rest as [|c1 t1]; [reflexivity|].
  rewrite byteAt_tail. intros H0 H1.
  change (highPrefix 2 (String c1 t1))
    with ((0x80 <=? byteVal c1) && highPrefix 1 t1).
  rewrite (highPrefix_1 t1 H1), andb_true_r. apply Z.leb_le, H0.
Qed.

Lemma highPrefix_3 (rest : string) :
  0x80 <= byteAt rest 0 -> 0x80 <= byteAt rest 1 -> 0x80 <= byteAt rest 2 ->
  highPrefix 3 rest = true.
Proof.
  destruct rest as [|c1 t1]; [reflexivity|].
  rewrite !byteAt_tail. intros H0 H1 H2.
  change (highPrefix 3 (String c1 t1))
    with ((0x80 <=? byteVal c1) && highPrefix 2 t1).
  rewrite (highPrefix_2 t1 H1 H2), andb_true_r. apply Z.leb_le, H0.
Qed.

(** A rune of more than one byte starts with a byte of [0xC2] or more and
    goes on with bytes of [0x80] or more. *)
Lemma DecodeRuneInString_bytes (c : ascii) (rest : string) (r : Z) (size : nat) :
  DecodeRuneInString (String c rest) = (r, size) ->
  highPrefix (Nat.pred size) rest = true
  /\ (IsSpace r = false -> asciiSpace c = false).
Proof.
  destruct (Z.ltb_spec (byteVal c) 0x80) as [Hlow|Hhigh].
  - intros H. rewrite DecodeRuneInString_ascii in H by (apply Z.ltb_lt, Hlow).
    inversion H; subst. split; [reflexivity|].
    intros Hs. rewrite <- IsSpace_ascii by (apply Z.ltb_lt, Hlow). exact Hs.
  - intros H. split; [|intros _; apply asciiSpace_high, Hhigh].
    revert H. unfold DecodeRuneInString.
    change (byteAt (String c rest) 0) with (byteVal c).
    rewrite !byteAt_tail.
    destruct (_ <? 1); [intros H; inversion H; reflexivity|].
    generalize (Z.of_nat (String.length (String c rest))) as n. intros n.
    unfold first.
    repeat match goal with
           | |- context [if ?b then _ else _] =>
               lazymatch b with
               | (byteVal c <? _) => destruct b
               | (byteVal c =? _) => destruct b
               end
           end.
    all: repeat match goal with
         | |- context [Z.land (Z.pos ?p) 7] =>
             let v := eval vm_compute in (Z.land (Z.pos p) 7) in
             change (Z.land (Z.pos p) 7) with v
         | |- context [Z.shiftr ?a 4] =>
             let v := eval vm_compute in (Z.shiftr a 4) in
             change (Z.shiftr a 4) with v
         | |- context [Z.testbit ?a 0] =>
             let v := eval vm_compute in (Z.testbit a 0) in
             change (Z.testbit a 0) with v
         | |- context [240 <=? ?a] =>
             let v := eval vm_compute in (240 <=? a) in
             change (240 <=? a) with v
         end.
    all: cbv beta iota zeta delta [acceptRanges].
    all: repeat match goal with
         | |- context [?a <=? 2] =>
             let v := eval vm_compute in (a <=? 2) in change (a <=? 2) with v
         | |- context [?a <=? 3] =>
             let v := eval vm_compute in (a <=? 3) in change (a <=? 3) with v
         end.
    all: cbv beta iota.
    all: repeat match goal with
         | |- context [if ?b then _ else _] =>
             let E := fresh "E" in destruct b eqn:E
         end.
    all: intros H; inversion H; subst; clear H; cbn [Nat.pred]; try reflexivity.
    all: repeat match goal with
         | E : (_ || _) = false |- _ =>
             apply orb_false_elim in E; destruct E as [? ?]
         | E : (_ <? _) = false |- _ => apply Z.ltb_ge in E
         end.
    all: first [ apply highPrefix_1; lia
               | apply highPrefix_2; lia
               | apply highPrefix_3; lia ].
Qed.

Lemma noSpace_snoc (w : string) (c : ascii) :
  noSpace (w ++ String c EmptyString) = noSpace w && negb (asciiSpace c).
Proof.
  induction w as [|a w IH]; simpl.
  - rewrite andb_true_r. reflexivity.
  - rewrite IH, andb_assoc. reflexivity.
Qed.

Lemma fieldsLoop_noSpace (s : string) :
  forall (skip : nat) (cur : option string),
    (forall w, cur = Some w -> noSpace w = true /\ highPrefix skip s = true) ->
    Forall (fun w => noSpace w = true) (fieldsLoop IsSpace s skip cur).
Proof.
  induction s as [|c rest IH]; intros skip cur Hcur.
  - simpl. destruct cur as [w|]; constructor; [apply (Hcur w eq_refl) | constructor].
  - cbn [fieldsLoop]. destruct skip as [|k].
    + destruct (DecodeRuneInString (String c rest)) as [r size] eqn:Hdec.
      destruct (DecodeRuneInString_bytes c rest r size Hdec) as [Hhigh Hc].
      destruct (IsSpace r) eqn:Hr.
      * destruct cur as [w|].
        -- constructor; [apply (Hcur w eq_refl) | apply IH; discriminate].
        -- apply IH; discriminate.
      * specialize (Hc eq_refl). destruct cur as [w|]; apply IH.
        -- intros w' Hw'. inversion Hw'; subst. split; [|exact Hhigh].
           rewrite noSpace_snoc, Hc. destruct (Hcur w eq_refl) as [Hw _].
           rewrite Hw. reflexivity.
        -- intros w' Hw'. inversion Hw'; subst. split; [|exact Hhigh].
           simpl. rewrite Hc. reflexivity.
    + destruct cur as [w|]; apply IH; [|discriminate].
      intros w' Hw'. inversion Hw'; subst.
      destruct (Hcur w eq_refl) as [Hw Hhigh].
      change (highPrefix (S k) (String c rest))
        with ((0x80 <=? byteVal c) && highPrefix k rest) in Hhigh.
      apply andb_prop in Hhigh. destruct Hhigh as [Hc Hk]. split; [|exact Hk].
      rewrite noSpace_snoc, Hw, asciiSpace_high by (apply Z.leb_le, Hc).
      reflexivity.
Qed.

Lemma Fields_noSpace (s : string) :
  Forall (fun w => noSpace w = true) (Fields s).
Proof.
  unfold Fields, FieldsFunc. apply fieldsLoop_noSpace. discriminate.
Qed.

Lemma isDiskLine_noSpace (line : string) :
  isDiskLine line = true -> noSpace (nth 0 (Fields line) EmptyString) = true.
Proof.
  unfold isDiskLine. intros H. apply andb_prop in H. destruct H as [Hlen _].
  pose proof (Fields_noSpace line) as Hall.
  destruct (Fields line) as [|w ws]; [reflexivity|].
  inversion Hall; assumption.
Qed.

Lemma ExtractLastVolumeName_none (text : string) :
  existsb isDiskLine (Split text newline) = false ->
  ExtractLastVolumeName text
  = (EmptyString, Some (errorString "no disk volume found in lsblk output")).
Proof.
  intros H. unfold ExtractLastVolumeName. rewrite (loop_no_disk _ _ H). reflexivity.
Qed.

(** X1.  [ExtractLastVolumeName] returns either a name and no error or the
    empty name and the "no disk volume found" error, never both and never
    neither.  A name it returns is the NAME field of a disk line of the
    listing, is not empty, and holds no space, tab, line feed, vertical
    tab, form feed or carriage return. *)
Theorem ExtractLastVolumeName_result (text : string) :
  (exists line,
      In line (Split text newline)
      /\ isDiskLine line = true
      /\ ExtractLastVolumeName text = (nth 0 (Fields line) EmptyString, None)
      /\ nth 0 (Fields line) EmptyString <> EmptyString
      /\ noSpace (nth 0 (Fields line) EmptyString) = true)
  \/ ExtractLastVolumeName text
     = (EmptyString, Some (errorString "no disk volume found in lsblk output")).
Proof.
  destruct (existsb isDiskLine (Split text newline)) eqn:Hdisk.
  - left. destruct (last_disk_line _ Hdisk) as (before & line & after & Hs & Hl & Ha).
    exists line. split; [rewrite Hs; apply in_elt|]. split; [exact Hl|].
    split; [eapply ExtractLastVolumeName_at; eauto|].
    split; [apply isDiskLine_name, Hl | apply isDiskLine_noSpace, Hl].
  - right. apply ExtractLastVolumeName_none, Hdisk.
Qed.

Lemma Split_nonempty (s : string) (sep : ascii) : Split s sep <> [].
Proof.
  destruct s as [|c rest]; simpl; [discriminate|].
  destruct (Ascii.eqb c sep); [discriminate|].
  destruct (Split rest sep); discriminate.
Qed.

Lemma Split_app (a b : string) (sep : ascii) :
  Split (a ++ String sep b) sep = Split a sep ++ Split b sep.
Proof.
  induction a as [|c a IH]; simpl.
  - rewrite Ascii.eqb_refl. reflexivity.
  - destruct (Ascii.eqb c sep).
    + rewrite IH. reflexivity.
    + rewrite IH. pose proof (Split_nonempty a sep) as Hne.
      destruct (Split a sep) as [|piece pieces]; [contradiction|reflexivity].
Qed.

(** X2.  A listing made of two listings, one after the other on separate
    lines, yields what the second one yields when the second has a disk
    line, and what the first one yields otherwise: later disk lines
    override earlier ones and lines of other types change nothing. *)
Theorem ExtractLastVolumeName_append (first second : string) :
  ExtractLastVolumeName (first ++ String newline second)
  = if existsb isDiskLine (Split second newline)
    then ExtractLastVolumeName second
    else ExtractLastVolumeName first.
Proof.
  destruct (existsb isDiskLine (Split second newline)) eqn:Hdisk.
  - destruct (last_disk_line _ Hdisk) as (before & line & after & Hs & Hl & Ha).
    rewrite (ExtractLastVolumeName_at second before after line Hs Hl Ha).
    apply (ExtractLastVolumeName_at _ (Split first newline ++ before) after line);
      [|exact Hl|exact Ha].
    rewrite Split_app, Hs, app_assoc. reflexivity.
  - unfold ExtractLastVolumeName. rewrite Split_app, fold_left_app.
    cbv zeta. rewrite (loop_no_disk _ _ Hdisk). reflexivity.
Qed.

(** ** Further properties of the root bootstrap *)

Lemma Index_lower (s substr : string) : -1 <= Index s substr.
Proof.
  induction s as [|c rest IH]; cbn [Index].
  - destruct (String.prefix substr ""); lia.
  - destruct (String.prefix substr (String c rest)); [lia|].
    cbv zeta. destruct (Z.eqb_spec (Index rest substr) (-1)); lia.
Qed.

Lemma prefix_app (p a b : string) :
  String.prefix p a = true -> String.prefix p (a ++ b) = true.
Proof.
  revert a. induction p as [|x p IH]; intros a H;
    [destruct (a ++ b)%string; reflexivity|].
  destruct a as [|y a]; [discriminate|]. simpl in *.
  destruct (ascii_dec x y); [apply IH, H | discriminate].
Qed.

Lemma sliceFrom_0 (s : string) : sliceFrom s 0 = s.
Proof.
  unfold sliceFrom. simpl Z.to_nat. rewrite Nat.sub_0_r.
  induction s as [|c s IH]; [reflexivity|].
  simpl. simpl in IH. rewrite IH. reflexivity.
Qed.

Lemma sliceFrom_succ (c : ascii) (rest : string) (i : Z) :
  0 <= i -> sliceFrom (String c rest) (i + 1) = sliceFrom rest i.
Proof.
  intros Hi. unfold sliceFrom.
  replace (Z.to_nat (i + 1)) with (S (Z.to_nat i)) by lia. reflexivity.
Qed.

(** [s[Index(s, substr):]] starts with [substr], and what is cut off holds
    no instance of [substr]. *)
Lemma Index_found (substr : string) :
  String.prefix substr "" = false ->
  forall s,
    Index s substr <> -1 ->
    exists dropped,
      s = (dropped ++ sliceFrom s (Index s substr))%string
      /\ String.prefix substr (sliceFrom s (Index s substr)) = true
      /\ Index dropped substr = -1.
Proof.
  intros Hsub. induction s as [|c rest IH]; intros Hi.
  - cbn [Index] in Hi. rewrite Hsub in Hi. contradiction.
  - cbn [Index] in Hi |- *. cbv zeta in Hi |- *.
    destruct (String.prefix substr (String c rest)) eqn:Hp.
    + exists EmptyString. rewrite sliceFrom_0, Hp. cbn [Index]. rewrite Hsub.
      repeat split.
    + pose proof (Index_lower rest substr) as Hlow.
      destruct (Z.eqb_spec (Index rest substr) (-1)) as [E|E]; [contradiction|].
      destruct (IH E) as (dropped & Hs & Hpre & Hnone).
      exists (String c dropped). rewrite sliceFrom_succ by lia.
      split; [simpl; rewrite <- Hs; reflexivity|]. split; [exact Hpre|].
      change (Index (String c dropped) substr)
        with (if String.prefix substr (String c dropped) then 0
              else let i := Index dropped substr in if i =? -1 then -1 else i + 1).
      destruct (String.prefix substr (String c dropped)) eqn:Hpd.
      * apply (prefix_app _ _ (sliceFrom rest (Index rest substr))) in Hpd.
        simpl append in Hpd. rewrite <- Hs, Hp in Hpd. discriminate.
      * cbv zeta. rewrite Hnone. reflexivity.
Qed.

Lemma Index_prefix (s substr : string) :
  String.prefix substr s = true -> Index s substr = 0.
Proof.
  intros H. destruct s; cbn [Index]; rewrite H; reflexivity.
Qed.

Lemma loginAsRoot_writes (n : Node) (tr : Trace) (output : string) :
  snd (respond (client n) (actions tr) becomeRoot) = None ->
  respond (client n) (actions tr ++ [Remote becomeRoot]) readKeys = (output, None) ->
  Index output "ssh-rsa" <> -1 ->
  exists o tr' later,
    loginAsRoot n tr = (o, tr')
    /\ actions tr'
       = actions tr
         ++ [Remote becomeRoot; Remote readKeys;
             Remote (writeKeys (sliceFrom output (Index output "ssh-rsa")))]
         ++ later.
Proof using.
  clear NewCommand CBInstallDirectory filepath_Base filepath_Join.
  unfold loginAsRoot, becomeRoot, readKeys, writeKeys, restartSSH.
  intros H1 H2 Hidx. run_step.
  destruct (respond (client n) (actions tr) _) as [out1 [e1|]]; [discriminate|].
  run_step. rewrite H2. run_step.
  destruct (Z.eqb_spec (Index output "ssh-rsa") (-1)) as [E|_]; [contradiction|].
  run_step.
  destruct (respond (client n) (actions tr ++ [_; _]) _) as [out3 [e3|]]; run_step.
  - eexists; eexists; exists []. split; [reflexivity|]. run_step. reflexivity.
  - destruct (respond (client n) (actions tr ++ [_; _; _]) _) as [out4 [e4|]]; run_step.
    + eexists; eexists; eexists [_]. split; [reflexivity|]. run_step. reflexivity.
    + eexists; eexists; eexists [_]. split; [reflexivity|]. run_step. reflexivity.
Qed.

(** X3.  When [loginAsRoot] has become root and has read authorized keys
    that hold an "ssh-rsa", the content it writes back is the part of the
    file from the first "ssh-rsa" to the end: it starts with "ssh-rsa", what
    it drops in front holds no "ssh-rsa", and a file that already starts
    with "ssh-rsa" is written back unchanged.  The content is placed
    between single quotes in the command, as it is. *)
Theorem loginAsRoot_written_content (n : Node) (tr : Trace) (output : string) :
  snd (respond (client n) (actions tr) becomeRoot) = None ->
  respond (client n) (actions tr ++ [Remote becomeRoot]) readKeys = (output, None) ->
  Index output "ssh-rsa" <> -1 ->
  exists dropped newContent o tr' later,
    output = (dropped ++ newContent)%string
    /\ String.prefix "ssh-rsa" newContent = true
    /\ Index dropped "ssh-rsa" = -1
    /\ (String.prefix "ssh-rsa" output = true -> newContent = output)
    /\ loginAsRoot n tr = (o, tr')
    /\ actions tr'
       = actions tr
         ++ [Remote becomeRoot; Remote readKeys;
             Remote (ReqExecuteCommand
                       ("echo '" ++ newContent
                        ++ "' | sudo tee /root/.ssh/authorized_keys")%string)]
         ++ later.
Proof using.
  intros H1 H2 Hidx.
  destruct (Index_found "ssh-rsa" eq_refl output Hidx) as (dropped & Hs & Hpre & Hnone).
  destruct (loginAsRoot_writes n tr output H1 H2 Hidx) as (o & tr' & later & Hrun & Hact).
  exists dropped, (sliceFrom output (Index output "ssh-rsa")), o, tr', later.
  repeat split; try assumption.
  intros Hp. rewrite (Index_prefix _ _ Hp). apply sliceFrom_0.
Qed.

(** ** Further properties of the package life cycle *)

(** X4.  [uninstallCB] uninstalls the package and purges the install
    directory only after the package has been uninstalled: when the
    uninstall fails the method returns that failure, wrapped, and the
    directory is left alone; otherwise it returns the outcome of the purge,
    wrapped in a message that names the directory when it is a failure. *)
Theorem uninstallCB_fail_fast (n : Node) (tr : Trace) :
  let c := client n in
  let h := actions tr in
  let uninstall := ReqUninstallPackages ["couchbase-server"] in
  let purge := ReqRemoveDirectory CBInstallDirectory in
  exists tr',
    uninstallCB n tr = (Returned (snd (failFast c h uninstallScript)), tr')
    /\ actions tr' = h ++ fst (failFast c h uninstallScript)
    /\ match snd (respond c h uninstall) with
       | Some e =>
           failFast c h uninstallScript
           = ([Remote uninstall],
              Some (withMessage e "failed to uninstall 'couchbase-server'"))
       | None =>
           failFast c h uninstallScript
           = ([Remote uninstall; Remote purge],
              errors_Wrap (snd (respond c (h ++ [Remote uninstall]) purge))
                ("failed to cleanup install directory at '"
                 ++ CBInstallDirectory ++ "'")%string)
       end.
Proof.
  intros c h uninstall purge. subst c h uninstall purge.
  unfold uninstallCB, uninstallScript. run_step. cbn [failFast].
  answer; [|answer];
    (eexists; split; [reflexivity | split; [run_step; reflexivity | reflexivity]]).
Qed.

(** X5.  [installCB] uploads the archive, installs it and removes it, all
    at the same remote path, and stops at the first of the three that
    fails.  When the installation fails the archive is not removed from the
    host, and success is returned only after the removal has been issued. *)
Theorem installCB_fail_fast (n : Node) (localPath : string) (tr : Trace) :
  let c := client n in
  let h := actions tr in
  let upload := ReqSecureUpload localPath (remotePathOf localPath) in
  let install := ReqInstallPackageAt (remotePathOf localPath) in
  let remove := ReqRemoveFile (remotePathOf localPath) in
  let ff := failFast c h (installScript localPath) in
  (exists tr',
      installCB n localPath tr = (Returned (snd ff), tr')
      /\ actions tr' = h ++ fst ff)
  /\ (forall e,
        snd (respond c h upload) = None ->
        snd (respond c (h ++ [Remote upload]) install) = Some e ->
        ff = ([Remote upload; Remote install],
              Some (withMessage e "failed to install 'couchbase-server'")))
  /\ (snd ff = None -> fst ff = [Remote upload; Remote install; Remote remove]).
Proof.
  intros c h upload install remove ff. subst c h upload install remove ff.
  split; [|split].
  - unfold installCB, installScript, remotePathOf. run_step. cbn [failFast].
    answer; [finish|]. answer; [finish|]. answer; finish.
  - intros e Hup Hin. unfold installScript. cbn [failFast].
    rewrite Hup, Hin. reflexivity.
  - apply failFast_success.
Qed.

(** ** Further properties of the partitioning sequencer *)

(** X6.  When the listing of the block devices fails,
    [checkAndPartitionEBS] returns that failure wrapped in "failed to check
    for all volumes" and issues no other request. *)
Theorem checkAndPartitionEBS_listing_fails (n : Node) (tr : Trace) (e : error) :
  snd (respond (client n) (actions tr) listVolumes) = Some e ->
  exists tr',
    checkAndPartitionEBS n tr
    = (Returned (Some (wrapError ("failed to check for all volumes: " ++ Error e)%string e)),
       tr')
    /\ actions tr' = actions tr ++ [Remote listVolumes].
Proof.
  unfold checkAndPartitionEBS, listVolumes. run_step. intros H.
  answer; simpl in H; [|discriminate]. inversion H; subst.
  eexists. split.
  - unfold fmt_Errorf. cbn [Sprintf Ascii.eqb Bool.eqb andb orb].
    rewrite append_nil_r_string. reflexivity.
  - run_step. reflexivity.
Qed.

(** X7.  When the listing succeeds and none of its lines is a disk line,
    [checkAndPartitionEBS] returns "failed to extract last volume name: no
    disk volume found in lsblk output" and has issued the listing alone: no
    device is checked, probed, partitioned, formatted or mounted. *)
Theorem checkAndPartitionEBS_no_disk (n : Node) (tr : Trace) (allVolumes : string) :
  respond (client n) (actions tr) listVolumes = (allVolumes, None) ->
  existsb isDiskLine (Split allVolumes newline) = false ->
  exists tr',
    checkAndPartitionEBS n tr
    = (Returned
         (Some (wrapError
                  "failed to extract last volume name: no disk volume found in lsblk output"
                  (errorString "no disk volume found in lsblk output"))), tr')
    /\ actions tr' = actions tr ++ [Remote listVolumes].
Proof.
  unfold checkAndPartitionEBS, listVolumes. run_step. intros Hlist Hnone.
  rewrite Hlist. run_step. rewrite (ExtractLastVolumeName_none _ Hnone). run_step.
  eexists. split; [reflexivity|]. run_step. reflexivity.
Qed.

(** X8.  On every host [checkAndPartitionEBS] issues a prefix of one fixed
    sequence of seven commands, each at most once and in this order: the
    listing, the check and the probe of the selected volume, then [sfdisk],
    [mkfs.xfs], [mount] and [chmod].  It returns success only after
    exactly the first three (the partition was found) or after all seven
    (the volume was prepared). *)
Theorem checkAndPartitionEBS_sequence (n : Node) (tr : Trace) :
  let c := client n in
  let h := actions tr in
  let volumeName := fst (ExtractLastVolumeName (fst (respond c h listVolumes))) in
  let sequence :=
    Remote listVolumes :: Remote (checkVolume volumeName)
    :: Remote (probePartition volumeName)
    :: map actionOf (partitionScript volumeName) in
  exists res tr' k,
    checkAndPartitionEBS n tr = (Returned res, tr')
    /\ actions tr' = h ++ firstn k sequence
    /\ (res = None -> k = 3%nat \/ k = 7%nat).
Proof.
  intros c h volumeName sequence. subst sequence volumeName h c.
  unfold checkAndPartitionEBS, listVolumes, checkVolume, probePartition,
    partitionScript.
  run_step.
  destruct (respond (client n) (actions tr) _) as [allVolumes [e|]]; run_step.
  { eexists; eexists; exists 1%nat. repeat split; [run_step; reflexivity | discriminate]. }
  destruct (ExtractLastVolumeName allVolumes) as [volumeName [e|]]; run_step.
  { eexists; eexists; exists 1%nat. repeat split; [run_step; reflexivity | discriminate]. }
  answer.
  { eexists; eexists; exists 2%nat. repeat split; [run_step; reflexivity | discriminate]. }
  answer.
  2: { eexists; eexists; exists 3%nat. repeat split; [run_step; reflexivity | auto]. }
  answer.
  { eexists; eexists; exists 4%nat. repeat split; [run_step; reflexivity | discriminate]. }
  answer.
  { eexists; eexists; exists 5%nat. repeat split; [run_step; reflexivity | discriminate]. }
  answer.
  { eexists; eexists; exists 6%nat. repeat split; [run_step; reflexivity | discriminate]. }
  answer.
  { eexists; eexists; exists 7%nat. repeat split; [run_step; reflexivity | discriminate]. }
  eexists; eexists; exists 7%nat. repeat split; [run_step; reflexivity | auto].
Qed.

(** ** Which methods return to their caller *)








(** ** The cause of a failed provisioning *)








End Nodes.

(** ** Runs on scripted hosts

    The statements above at concrete nodes: [NewCommand] is [Sprintf], the
    install directory is /opt/couchbase and the path functions are those of
    clean Unix paths. *)

Local Open Scope list_scope.

(** C1.  A host on which the archive is already present answers the upload
    with the error "File already exists".  [installCB] tests [err != nil]
    first, so it returns that error wrapped in "failed to upload package
    archive" after the upload request alone, and [provision] on such a host
    fails with "failed to install Couchbase Server: failed to upload package
    archive: File already exists". *)
Theorem installCB_existing_archive_fails :
  let e := errorString "File already exists" in
  let n := scriptedNode exampleBlueprint [failed "File already exists"] in
  let m := scriptedNode exampleBlueprint [ok; ok; ok; failed "File already exists"] in
  (exists tr',
      installCB lastElement joinSlash n examplePackage []
      = (Returned (Some (withMessage e "failed to upload package archive")), tr')
      /\ actions tr'
         = [Remote (ReqSecureUpload examplePackage
                      "/home/ec2-user/couchbase-server-enterprise-7.0.0-amzn2.x86_64.rpm")])
  /\ fst (provision Sprintf "/opt/couchbase" lastElement joinSlash m examplePackage [])
     = Returned
         (Some (withMessage (withMessage e "failed to upload package archive")
                  "failed to install Couchbase Server"))
  /\ option_map Error
       (Some (withMessage (withMessage e "failed to upload package archive")
                "failed to install Couchbase Server"))
     = Some "failed to install Couchbase Server: failed to upload package archive: File already exists"%string.
Proof.
  intros e n m. split; [|split].
  - destruct (installCB_upload_error lastElement joinSlash n examplePackage [] e)
      as (tr' & Hrun & Hact); [reflexivity|].
    exists tr'. split; [exact Hrun | exact Hact].
  - vm_compute. reflexivity.
  - vm_compute. reflexivity.
Qed.

Lemma ExtractLastVolumeName_last_disk_witness :
  exists before line after,
    Split scenarioA newline = before ++ line :: after
    /\ isDiskLine line = true
    /\ existsb isDiskLine after = false
    /\ ExtractLastVolumeName scenarioA = (nth 0 (Fields line) EmptyString, None).
Proof.
  apply (proj1 ExtractLastVolumeName_last_disk scenarioA).
  vm_compute. reflexivity.
Defined.

Lemma ExtractLastVolumeName_not_found_witness :
  ExtractLastVolumeName "NAME SIZE TYPE MOUNTPOINT"
  = (EmptyString, Some (errorString "no disk volume found in lsblk output")).
Proof.
  apply (proj1 ExtractLastVolumeName_not_found "NAME SIZE TYPE MOUNTPOINT").
  vm_compute. reflexivity.
Defined.

(** The listing succeeds, the volume is found, the probe finds no
    partition, and the four commands of the script succeed. *)
Lemma checkAndPartitionEBS_probe_witness :
  let n := scriptedNode exampleBlueprint
             [(scenarioA, None); ok; failed "exit status 1"; ok; ok; ok; ok] in
  exists tr',
    checkAndPartitionEBS Sprintf n [] = (Returned None, tr')
    /\ actions tr'
       = map (fun command => Remote (ReqExecuteCommand command))
           ["lsblk -o NAME,SIZE,TYPE,MOUNTPOINT"%string;
            "lsblk | grep nvme1n1"%string;
            "lsblk /dev/nvme1n1 | grep /dev/nvme1n1p1"%string;
            "echo ',,,;' | sfdisk /dev/nvme1n1"%string;
            "mkfs.xfs /dev/nvme1n1p1"%string;
            "mount /dev/nvme1n1p1 /mnt"%string;
            "chmod 777 /mnt"%string].
Proof.
  intros n.
  destruct (checkAndPartitionEBS_probe Sprintf n [] scenarioA "nvme1n1")
    as (_ & Hmissing & _).
  - vm_compute. reflexivity.
  - vm_compute. reflexivity.
  - vm_compute. reflexivity.
  - destruct Hmissing as (tr' & Hrun & Hact).
    + vm_compute. discriminate.
    + exists tr'. split; [exact Hrun | exact Hact].
Defined.

(** The volume check fails: nothing is probed or partitioned. *)
Lemma checkAndPartitionEBS_volume_check_witness :
  let n := scriptedNode exampleBlueprint [(scenarioA, None); failed "exit status 1"] in
  exists tr',
    checkAndPartitionEBS Sprintf n []
    = (Returned
         (Some (wrapError "failed to check for EBS volume: exit status 1"
                  (errorString "exit status 1"))), tr')
    /\ actions tr'
       = map (fun command => Remote (ReqExecuteCommand command))
           ["lsblk -o NAME,SIZE,TYPE,MOUNTPOINT"%string; "lsblk | grep nvme1n1"%string].
Proof.
  intros n.
  destruct (checkAndPartitionEBS_volume_check Sprintf n [] scenarioA "nvme1n1")
    as (Hfails & _).
  - vm_compute. reflexivity.
  - vm_compute. reflexivity.
  - destruct (Hfails (errorString "exit status 1")) as (tr' & Hrun & Hact).
    + vm_compute. reflexivity.
    + exists tr'. split; [exact Hrun | exact Hact].
Defined.

(** Scenario D: every request of the run succeeds. *)
Lemma provision_fail_fast_witness :
  let n := scriptedNode exampleBlueprint [] in
  exists tr',
    provision Sprintf "/opt/couchbase" lastElement joinSlash n examplePackage []
    = (Returned None, tr')
    /\ actions tr'
       = map actionOf
           (provisionScript Sprintf "/opt/couchbase" lastElement joinSlash n examplePackage).
Proof.
  intros n.
  destruct (provision_fail_fast Sprintf "/opt/couchbase" lastElement joinSlash
              n examplePackage [])
    as ((tr' & Hrun & Hact) & _ & _ & _ & Hok).
  rewrite Hok in Hrun, Hact
    by (intros h r; simpl; destruct (requestsIn h); reflexivity).
  exists tr'. split; [exact Hrun | exact Hact].
Defined.

(** The creation succeeds and the change of owner fails. *)
Lemma path_configuration_witness :
  let n := scriptedNode exampleBlueprint [ok; failed "exit status 1"] in
  fst (createDataPath Sprintf n [])
  = Returned (Some (withMessage (errorString "exit status 1")
                      "failed to chown remote data directory"))
  /\ actions (snd (createDataPath Sprintf n []))
     = map (fun command => Remote (ReqExecuteCommand command))
         ["mkdir -p /data"%string; "chown -R couchbase:couchbase /data"%string].
Proof.
  intros n.
  destruct (path_configuration Sprintf n []) as ((_ & Hset & _) & _).
  apply Hset. discriminate.
Defined.

(** The data path is set and the creation of the directory fails: one
    command is issued, not two. *)
Lemma path_configuration_single_command :
  let n := scriptedNode exampleBlueprint [failed "exit status 1"] in
  DataPath (blueprint n) <> EmptyString
  /\ actions (snd (createDataPath Sprintf n []))
     = [Remote (ReqExecuteCommand "mkdir -p /data")]
  /\ List.length (actions (snd (createDataPath Sprintf n []))) <> 2%nat.
Proof.
  intros n. split; [discriminate|]. split.
  - vm_compute. reflexivity.
  - vm_compute. discriminate.
Qed.

(** Scenario C: data path /data and index path /index. *)
Lemma initializeCB_command_witness :
  let n := scriptedNode exampleBlueprint [] in
  let command := Sprintf (initializeCB_init (blueprint n)) [] in
  Contains command "--node-init-data-path /data" = true
  /\ Contains command "--node-init-index-path /index" = true.
Proof.
  intros n command.
  destruct (initializeCB_command Sprintf n []) as (_ & _ & Hscenario).
  destruct Hscenario as (_ & Hdata & Hindex).
  - reflexivity.
  - reflexivity.
  - apply Sprintf_plain.
  - split; [exact Hdata | exact Hindex].
Defined.

(** The authorized keys hold no "ssh-rsa" key: the process exits after the
    second request. *)
Lemma loginAsRoot_fatal_witness :
  let n := scriptedNode exampleBlueprint [ok; ("ecdsa-sha2-nistp256 AAAA"%string, None)] in
  exists o tr',
    loginAsRoot n [] = (o, tr')
    /\ o = Exited 1
    /\ actions tr' = [Remote becomeRoot; Remote readKeys].
Proof.
  intros n.
  destruct (loginAsRoot_fatal n [])
    as (o & tr' & Hrun & Hcases & Hreturns & _ & _ & Hkeys & _).
  exists o, tr'. split; [exact Hrun|]. split.
  - destruct Hcases as [Hret|Hexit]; [|exact Hexit].
    apply Hreturns in Hret. destruct Hret as (_ & _ & Hindex & _).
    exfalso. apply Hindex. vm_compute. reflexivity.
  - apply Hkeys; [reflexivity | right; vm_compute; reflexivity].
Defined.

(** The removal of the archive fails after a successful installation. *)
Lemma installCB_removes_archive_witness :
  let n := scriptedNode exampleBlueprint [ok; ok; failed "Permission denied"] in
  exists tr',
    installCB lastElement joinSlash n examplePackage []
    = (Returned (Some (withMessage (errorString "Permission denied")
                         "failed to remove package archive")), tr')
    /\ actions tr'
       = [Remote (ReqSecureUpload examplePackage (remotePathOf lastElement joinSlash examplePackage));
          Remote (ReqInstallPackageAt (remotePathOf lastElement joinSlash examplePackage));
          Remote (ReqRemoveFile (remotePathOf lastElement joinSlash examplePackage))].
Proof.
  intros n.
  destruct (installCB_removes_archive Sprintf "/opt/couchbase" lastElement joinSlash
              n examplePackage [])
    as (Hinstall & _).
  destruct Hinstall as (tr' & Hrun & Hact).
  - reflexivity.
  - reflexivity.
  - exists tr'. split; [exact Hrun | exact Hact].
Defined.

(** The authorized keys start with an option in front of the key. *)
Lemma loginAsRoot_written_content_witness :
  let n := scriptedNode exampleBlueprint
             [ok; ("no-port-forwarding ssh-rsa AAAAB3Nza root@node"%string, None)] in
  exists dropped newContent o tr' later,
    "no-port-forwarding ssh-rsa AAAAB3Nza root@node"%string
    = (dropped ++ newContent)%string
    /\ String.prefix "ssh-rsa" newContent = true
    /\ Index dropped "ssh-rsa" = (-1)%Z
    /\ (String.prefix "ssh-rsa" "no-port-forwarding ssh-rsa AAAAB3Nza root@node" = true ->
        newContent = "no-port-forwarding ssh-rsa AAAAB3Nza root@node"%string)
    /\ loginAsRoot n [] = (o, tr')
    /\ actions tr'
       = actions []
         ++ [Remote becomeRoot; Remote readKeys;
             Remote (ReqExecuteCommand
                       ("echo '" ++ newContent
                        ++ "' | sudo tee /root/.ssh/authorized_keys")%string)]
         ++ later.
Proof.
  intros n.
  apply (loginAsRoot_written_content n []
           "no-port-forwarding ssh-rsa AAAAB3Nza root@node").
  - reflexivity.
  - reflexivity.
  - vm_compute. discriminate.
Defined.

Lemma checkAndPartitionEBS_listing_fails_witness :
  let n := scriptedNode exampleBlueprint [failed "connection lost"] in
  exists tr',
    checkAndPartitionEBS Sprintf n []
    = (Returned
         (Some (wrapError "failed to check for all volumes: connection lost"
                  (errorString "connection lost"))), tr')
    /\ actions tr' = [Remote (listVolumes Sprintf)].
Proof.
  intros n.
  apply (checkAndPartitionEBS_listing_fails Sprintf n [] (errorString "connection lost")).
  reflexivity.
Defined.

(** The host has a loop device and a partition but no disk. *)
Lemma checkAndPartitionEBS_no_disk_witness :
  let listing :=
    ("NAME SIZE TYPE MOUNTPOINT" ++ String newline "loop0 55M loop /snap/core"
     ++ String newline "xvda1 8G part /")%string in
  let n := scriptedNode exampleBlueprint [(listing, None)] in
  exists tr',
    checkAndPartitionEBS Sprintf n []
    = (Returned
         (Some (wrapError
                  "failed to extract last volume name: no disk volume found in lsblk output"
                  (errorString "no disk volume found in lsblk output"))), tr')
    /\ actions tr' = [Remote (listVolumes Sprintf)].
Proof.
  intros listing n.
  apply (checkAndPartitionEBS_no_disk Sprintf n [] listing).
  - reflexivity.
  - vm_compute. reflexivity.
Defined.

